(** * US Chess rating tracker: [rating_tracker.py] embedded and verified

    The script fetches a JSON document, walks it with [dict.get], indexing,
    slicing and truthiness tests, and prints a banner, two summary lines and
    a table.  The embedding keeps that shape:

    - a decoded JSON document is a [value]: Python's [None], [bool], [int],
      [str], [list], and [dict] with string keys.  JSON numbers with a
      fraction (Python floats) are outside the model;
    - a Python [int] is unbounded, hence [Z]; a [str] is a [string] whose
      characters stand for code points below 256;
    - a [dict] is a [gmap string value];
    - an operation that can raise returns a [result]; the code that prints
      runs in [io], which threads the lines printed so far and stops at the
      first exception that nothing catches;
    - the libraries the script calls ([requests], [datetime], [tabulate])
      are not part of it.  What [requests.get] and [response.json] do,
      return or raise, is an input of [fetch_member_sections].  The two
      [datetime] calls are parameters of [format_date_with]; [format_date]
      is its instance at a model of the parser (the grammar every CPython
      from 3.7 on reads) and of [strftime] (as glibc writes it).  The table
      handed to [tabulate] is kept as data in the output. *)

From stdpp Require Import base option list strings gmap pretty.
From Stdlib Require Import ZArith Lia Ascii.

#[local] Set Warnings "-register-all".
Local Open Scope Z_scope.

(** ** Python values, exceptions and results *)

Inductive value : Type :=
| VNone
| VBool (b : bool)
| VInt (n : Z)
| VStr (s : string)
| VList (l : list value)
| VDict (d : gmap string value).

(** What [requests] raises; every class below derives from
    [requests.exceptions.RequestException]. *)
Inductive request_error : Type :=
| ConnectionError
| Timeout
| TooManyRedirects
| HTTPError (status : Z)
| JSONDecodeError.

Inductive exn : Type :=
| AttributeError
| TypeError
| KeyError
| IndexError
| ValueError
| RecursionError
| KeyboardInterrupt
| RequestException (e : request_error).

Inductive result (A : Type) : Type :=
| Ok (a : A)
| Raise (e : exn).
Arguments Ok {A} a.
Arguments Raise {A} e.

#[global] Instance result_ret : MRet result := λ A a, Ok a.
#[global] Instance result_bind : MBind result := λ A B k r,
  match r with
  | Ok a => k a
  | Raise e => Raise e
  end.
#[global] Instance result_fmap : FMap result := λ A B f r,
  match r with
  | Ok a => Ok (f a)
  | Raise e => Raise e
  end.

(** ** What the script prints

    [print] of a literal is [Print]; an f-string that interpolates a value
    or an exception keeps the text before the hole and the interpolated
    object; [print(tabulate(...))] keeps the three arguments. *)
Inductive output : Type :=
| Print (s : string)
| PrintF (s : string) (v : value)
| PrintExn (s : string) (e : exn)
| PrintTable (table_data : list (list value)) (headers : list string)
             (tablefmt : string).

Definition io (A : Type) : Type := list output → result A * list output.

#[global] Instance io_ret : MRet io := λ A a out, (Ok a, out).
#[global] Instance io_bind : MBind io := λ A B k m out,
  match m out with
  | (Ok a, out') => k a out'
  | (Raise e, out') => (Raise e, out')
  end.

Definition print (o : output) : io unit := λ out, (Ok (), out ++ [o]).
Definition lift {A} (r : result A) : io A := λ out, (r, out).
Definition run {A} (m : io A) : result A * list output := m [].

(** ** The Python operations the script uses *)

(** [bool(v)]: what [if v], [not v] and [or] test. *)
Definition truthy (v : value) : bool :=
  match v with
  | VNone => false
  | VBool b => b
  | VInt n => negb (n =? 0)
  | VStr s => negb (String.eqb s "")
  | VList l => match l with [] => false | _ :: _ => true end
  | VDict d => negb (bool_decide (d = ∅))
  end.

Definition is_none (v : value) : bool :=
  match v with VNone => true | _ => false end.

(** [a or b]: [b] is evaluated only when [a] is falsy. *)
Definition py_or (a : value) (b : result value) : result value :=
  if truthy a then Ok a else b.

(** [o.get(key, default)]: only a [dict] has the method. *)
Definition py_get (o : value) (key : string) (default : value) : result value :=
  match o with
  | VDict d => Ok (from_option id default (d !! key))
  | _ => Raise AttributeError
  end.

(** [key in o] for a string [key]: a key of a dict, an element of a list, a
    substring of a string; anything else is not iterable. *)
Definition py_contains (key : string) (o : value) : result bool :=
  match o with
  | VDict d => Ok (bool_decide (is_Some (d !! key)))
  | VList l => Ok (existsb (λ x, match x with
                                 | VStr s => String.eqb s key
                                 | _ => false
                                 end) l)
  | VStr s => Ok (bool_decide (is_Some (String.index 0 key s)))
  | _ => Raise TypeError
  end.

(** [o[key]] for a string [key]. *)
Definition py_getitem (o : value) (key : string) : result value :=
  match o with
  | VDict d => match d !! key with
               | Some v => Ok v
               | None => Raise KeyError
               end
  | _ => Raise TypeError
  end.

(** [o[0]].  The keys of a decoded JSON object are strings, so [0] is never
    a key of a dict. *)
Definition py_first (o : value) : result value :=
  match o with
  | VList (x :: _) => Ok x
  | VList [] => Raise IndexError
  | VStr (String c _) => Ok (VStr (String c ""))
  | VStr "" => Raise IndexError
  | VDict _ => Raise KeyError
  | _ => Raise TypeError
  end.

(** [len(o)]. *)
Definition py_len (o : value) : result Z :=
  match o with
  | VList l => Ok (Z.of_nat (length l))
  | VStr s => Ok (Z.of_nat (String.length s))
  | VDict d => Ok (Z.of_nat (size d))
  | _ => Raise TypeError
  end.

Fixpoint str_chars (s : string) : list value :=
  match s with
  | "" => []
  | String c s' => VStr (String c "") :: str_chars s'
  end.

(** [for x in o]: the elements of a list, the characters of a string, the
    keys of a dict.  (In [display_sections] a dict never reaches the loop,
    [sections[0]] has raised before, so the order of its keys is not
    observable.) *)
Definition py_iter (o : value) : result (list value) :=
  match o with
  | VList l => Ok l
  | VStr s => Ok (str_chars s)
  | VDict d => Ok (VStr <$> (map_to_list d).*1)
  | _ => Raise TypeError
  end.

Fixpoint str_take (n : nat) (s : string) : string :=
  match n, s with
  | S n', String c s' => String c (str_take n' s')
  | _, _ => ""
  end.

(** [o[:n]]: a prefix of a string or of a list. *)
Definition py_slice_to (n : nat) (o : value) : result value :=
  match o with
  | VStr s => Ok (VStr (str_take n s))
  | VList l => Ok (VList (take n l))
  | _ => Raise TypeError
  end.

(** [int(v)] for the operands of arithmetic: [bool] is a subclass of [int]. *)
Definition as_int (v : value) : option Z :=
  match v with
  | VInt n => Some n
  | VBool b => Some (if b then 1 else 0)
  | _ => None
  end.

(** [a - b]: defined on numbers only. *)
Definition py_sub (a b : value) : result Z :=
  match as_int a, as_int b with
  | Some x, Some y => Ok (x - y)
  | _, _ => Raise TypeError
  end.

(** [str(n)] for an [int]: stdpp's decimal printer writes the same text
    (["0"], the digits, a leading ["-"] for a negative number). *)
Definition str_int (n : Z) : string := pretty n.

(** [s * n] for a string. *)
Fixpoint str_mul (s : string) (n : nat) : string :=
  match n with
  | O => ""
  | S n' => s +:+ str_mul s n'
  end.

(** The newline character. *)
Definition nl : string := String (ascii_of_nat 10) "".

(** [s.replace(old, new)] for a one-character [old]. *)
Fixpoint str_replace (old : ascii) (new : string) (s : string) : string :=
  match s with
  | "" => ""
  | String c s' =>
      if Ascii.eqb c old then new +:+ str_replace old new s'
      else String c (str_replace old new s')
  end.

(** [o.replace(old, new)]: a method of [str] only. *)
Definition py_replace (o : value) (old : ascii) (new : string) : result string :=
  match o with
  | VStr s => Ok (str_replace old new s)
  | _ => Raise AttributeError
  end.

(** ** [datetime.fromisoformat] and [strftime]

    Library code.  The parser below reads the grammar that
    [datetime.fromisoformat] has documented since Python 3.7,
    [YYYY-MM-DD[*HH[:MM[:SS[.fff[fff]]]][+HH:MM[:SS[.ffffff]]]]],
    where [*] is any one character, followed by the range checks of the
    [datetime] constructor; every later version reads these texts the same
    way, and from 3.11 on more texts besides (which this parser rejects).
    No trailing [Z] is in the grammar, which is why the script rewrites it.
    Only the date fields reach the output. *)

Record datetime : Type := mk_datetime {
  year : Z; month : Z; day : Z;
  hour : Z; minute : Z; second : Z; microsecond : Z;
  utcoffset : option Z  (* in microseconds; [None] for a naive datetime *)
}.

Definition digit_of (c : ascii) : option Z :=
  let n := Z.of_N (N_of_ascii c) in
  if (48 <=? n) && (n <=? 57) then Some (n - 48) else None.

Fixpoint parse_digits (num_digits : nat) (acc : Z) (s : string)
  : option (Z * string) :=
  match num_digits, s with
  | O, _ => Some (acc, s)
  | S k, String c s' => d ← digit_of c; parse_digits k (acc * 10 + d) s'
  | S _, "" => None
  end.

Definition expect (c : ascii) (s : string) : option string :=
  match s with
  | String c' s' => if Ascii.eqb c c' then Some s' else None
  | "" => None
  end.

(** [YYYY-MM-DD], and what follows it. *)
Definition parse_isoformat_date (s : string) : option (Z * Z * Z * string) :=
  '(y, s) ← parse_digits 4 0 s;
  s ← expect "-" s;
  '(m, s) ← parse_digits 2 0 s;
  s ← expect "-" s;
  '(d, s) ← parse_digits 2 0 s;
  Some (y, m, d, s).

(** [.fff] or [.ffffff], to the end of the text, in microseconds. *)
Definition parse_fraction (s : string) : option Z :=
  match String.length s with
  | 3%nat => '(f, _) ← parse_digits 3 0 s; Some (f * 1000)
  | 6%nat => '(f, _) ← parse_digits 6 0 s; Some f
  | _ => None
  end.

(** [HH[:MM[:SS[.fff[fff]]]]], the whole of [s]. *)
Definition parse_hh_mm_ss_ff (s : string) : option (Z * Z * Z * Z) :=
  '(hh, s) ← parse_digits 2 0 s;
  match s with
  | "" => Some (hh, 0, 0, 0)
  | String c s =>
      _ ← guard (c = ":"%char);
      '(mm, s) ← parse_digits 2 0 s;
      match s with
      | "" => Some (hh, mm, 0, 0)
      | String c s =>
          _ ← guard (c = ":"%char);
          '(ss, s) ← parse_digits 2 0 s;
          match s with
          | "" => Some (hh, mm, ss, 0)
          | String c s =>
              _ ← guard (c = "."%char);
              ff ← parse_fraction s;
              Some (hh, mm, ss, ff)
          end
      end
  end.

(** The time text up to the first [+] or [-], and the sign and text of the
    offset after it. *)
Fixpoint split_offset (s : string) : string * option (Z * string) :=
  match s with
  | "" => ("", None)
  | String c s' =>
      if Ascii.eqb c "+" then ("", Some (1, s'))
      else if Ascii.eqb c "-" then ("", Some (-1, s'))
      else let '(t, off) := split_offset s' in (String c t, off)
  end.

(** [+HH:MM], [+HH:MM:SS] or [+HH:MM:SS.ffffff]: the offset in microseconds,
    which [timezone] wants strictly within a day. *)
Definition parse_offset (sign : Z) (s : string) : option Z :=
  _ ← guard (String.length s ∈ [5; 8; 15]%nat);
  '(hh, mm, ss, ff) ← parse_hh_mm_ss_ff s;
  let off := sign * (((hh * 60 + mm) * 60 + ss) * 1000000 + ff) in
  _ ← guard (-86400000000 < off < 86400000000);
  Some off.

Definition parse_isoformat_time (s : string)
  : option (Z * Z * Z * Z * option Z) :=
  let '(t, off) := split_offset s in
  '(hh, mm, ss, ff) ← parse_hh_mm_ss_ff t;
  match off with
  | None => Some (hh, mm, ss, ff, None)
  | Some (sign, z) => o ← parse_offset sign z; Some (hh, mm, ss, ff, Some o)
  end.

Definition is_leap (y : Z) : bool :=
  (y mod 4 =? 0) && (negb (y mod 100 =? 0) || (y mod 400 =? 0)).

Definition days_in_month (y m : Z) : Z :=
  match m with
  | 2 => if is_leap y then 29 else 28
  | 4 | 6 | 9 | 11 => 30
  | _ => 31
  end.

(** The checks of [datetime(year, month, day, hour, minute, second, ...)]. *)
Definition valid_datetime (dt : datetime) : bool :=
  bool_decide (1 ≤ year dt ≤ 9999 ∧ 1 ≤ month dt ≤ 12
               ∧ 1 ≤ day dt ≤ days_in_month (year dt) (month dt)
               ∧ 0 ≤ hour dt ≤ 23 ∧ 0 ≤ minute dt ≤ 59
               ∧ 0 ≤ second dt ≤ 59 ∧ 0 ≤ microsecond dt ≤ 999999).

Definition parse_isoformat (s : string) : option datetime :=
  '(y, m, d, rest) ← parse_isoformat_date s;
  '(hh, mm, ss, ff, off) ←
    match rest with
    | "" => Some (0, 0, 0, 0, None)
    | String _ t => parse_isoformat_time t
    end;
  let dt := mk_datetime y m d hh mm ss ff off in
  if valid_datetime dt then Some dt else None.

(** [datetime.fromisoformat(date_string)]: a [ValueError] for every text
    outside the grammar. *)
Definition fromisoformat (date_string : string) : result datetime :=
  match parse_isoformat date_string with
  | Some dt => Ok dt
  | None => Raise ValueError
  end.

Definition digit_char (d : Z) : ascii := ascii_of_N (Z.to_N (48 + d)).

(** A field written in [width] decimal digits, zero-filled ([%m] and [%d]
    with 2); the fields of a [datetime] fit their width. *)
Fixpoint zero_padded (width : nat) (n : Z) : string :=
  match width with
  | O => ""
  | S w => zero_padded w (n / 10) +:+ String (digit_char (n mod 10)) ""
  end.

(** [date.strftime("%Y-%m-%d")] as the C library of Linux (glibc) writes
    it: the year in decimal without zero-fill, month and day in two digits.
    (Other C libraries fill the year to four digits; for a year from 1000
    on all agree.) *)
Definition strftime_Y_m_d (date : datetime) : string :=
  str_int (year date) +:+ "-" +:+ zero_padded 2 (month date)
  +:+ "-" +:+ zero_padded 2 (day date).

(** ** [format_date]

    The function with its two library calls as parameters.  The bare
    [except] catches whatever the [try] block raises: the [AttributeError]
    of [replace] on a value that is not a string as well as the
    [ValueError] of the parser. *)
Definition format_date_with (fromisoformat : string → result datetime)
    (strftime : datetime → string) (date_string : value) : result value :=
  if negb (truthy date_string) then Ok (VStr "N/A")
  else
    match (s ← py_replace date_string "Z" "+00:00";
           date ← fromisoformat s;
           mret (VStr (strftime date))) with
    | Ok formatted => Ok formatted
    | Raise _ => Ok date_string
    end.

Definition format_date : value → result value :=
  format_date_with fromisoformat strftime_Y_m_d.

(** ** [calculate_rating_change] *)

Definition calculate_rating_change (rating_before rating_after : value)
  : result value :=
  if is_none rating_after || is_none rating_before then Ok (VStr "Pending")
  else
    change ← py_sub rating_after rating_before;
    if 0 <? change then Ok (VStr ("+" +:+ str_int change))
    else if change <? 0 then Ok (VStr (str_int change))
    else Ok (VStr "0").

(** ** [display_sections] *)

Definition headers : list string :=
  ["Date"; "Tournament"; "Section"; "Type"; "Before"; "After"; "Change"].

Definition rule : string := str_mul "=" 80.

(** The [current_rating] of the summary: the [if rating_records:] of the
    statistics block, for the first section [latest]. *)
Definition current_rating (latest : value) : result value :=
  rating_records ← py_get latest "ratingRecords" (VList []);
  if truthy rating_records then
    first ← py_first rating_records;
    post ← py_get first "postRating" VNone;
    py_or post (
      first ← py_first rating_records;
      pre ← py_get first "preRating" VNone;
      py_or pre (Ok (VStr "N/A")))
  else Ok (VStr "N/A").

(** [rating_before] and [rating_after] of a section: [None], unless
    [if rating_records:] fills them from the first record. *)
Definition first_record_ratings (rating_records : value)
  : result (value * value) :=
  if truthy rating_records then
    first ← py_first rating_records;
    rating_before ← py_get first "preRating" VNone;
    first ← py_first rating_records;
    rating_after ← py_get first "postRating" VNone;
    mret (rating_before, rating_after)
  else mret (VNone, VNone).

(** The body of [for section in sections]: the [row] of one section. *)
Definition section_row (section : value) : result (list value) :=
  rating_records ← py_get section "ratingRecords" (VList []);
  rating_type ← py_get section "ratingSystem" (VStr "R");
  '(rating_before, rating_after) ← first_record_ratings rating_records;
  change ← calculate_rating_change rating_before rating_after;
  event ← py_get section "event" (VDict ∅);
  event_name ← py_get event "name" (VStr "N/A");
  end_date ← py_get event "endDate" VNone;
  event_date ← py_or end_date (py_get event "startDate" (VStr ""));
  date ← format_date event_date;
  tournament ← py_slice_to 30 event_name;
  section_name ← py_get section "sectionName" (VStr "N/A");
  section_name ← py_slice_to 20 section_name;
  mret [date; tournament; section_name; rating_type;
        if is_none rating_before then VStr "N/A" else rating_before;
        if is_none rating_after then VStr "Pending" else rating_after;
        change].

(** The loop: each row is appended to [table_data]; the first exception
    ends it. *)
Fixpoint for_sections (sections : list value) (table_data : list (list value))
  : result (list (list value)) :=
  match sections with
  | [] => Ok table_data
  | section :: rest =>
      row ← section_row section;
      for_sections rest (table_data ++ [row])
  end.

Definition display_sections (data : value) : io value :=
  no_items ← lift (if negb (truthy data) then Ok true
                   else negb <$> py_contains "items" data);
  if no_items : bool then
    print (Print "No data available");; mret VNone
  else
    sections ← lift (py_getitem data "items");
    if negb (truthy sections) then
      print (Print "No tournament sections found");; mret VNone
    else
      print (Print (nl +:+ rule));;
      print (Print "US CHESS RATING TRACKER");;
      print (Print rule);;
      ((if truthy sections then
         latest ← lift (py_first sections);
         current_rating ← lift (current_rating latest);
         total_sections ← lift (py_len sections);
         print (PrintF (nl +:+ "Current Rating: ") current_rating);;
         print (PrintF "Total Sections: " (VInt total_sections))
       else mret ()) : io unit);;
      table_data ← lift (items ← py_iter sections; for_sections items []);
      print (Print (nl +:+ rule));;
      print (Print "TOURNAMENT SECTIONS (Most Recent First)");;
      print (Print (rule +:+ nl));;
      print (PrintTable table_data headers "grid");;
      print (Print "");;
      mret VNone.

(** ** [fetch_member_sections]

    The network is an input: what [requests.get] did for the URL and the
    query parameters, and what [response.json()] does on the response it
    returned.  Either call may return or raise; what [requests] itself
    raises is a [RequestException], anything else (an interrupt, the
    decoder giving up on the nesting of the body) is not. *)

Record response : Type := mk_response {
  status_code : Z;
  json : result value  (* the decoded body, or what decoding raises *)
}.

Definition network : Type := string → list (string * Z) → result response.

Definition requests_get (net : network) (url : string)
    (params : list (string * Z)) : result response :=
  net url params.

(** [response.raise_for_status()]: an [HTTPError] for a 4xx or 5xx status. *)
Definition raise_for_status (r : response) : result unit :=
  if (400 <=? status_code r) && (status_code r <? 600)
  then Raise (RequestException (HTTPError (status_code r)))
  else Ok ().

(** [response.json()]. *)
Definition response_json (r : response) : result value := json r.

Definition fetch_member_sections (net : network) (member_id : string)
    (offset size : Z) : io value :=
  let url := "https://ratings-api.uschess.org/api/v1/members/"
             +:+ member_id +:+ "/sections" in
  let params := [("Offset", offset); ("Size", size)] in
  match (response ← requests_get net url params;
         _ ← raise_for_status response;
         response_json response) with
  | Ok v => mret v
  | Raise (RequestException e) =>
      print (PrintExn "Error fetching data: " (RequestException e));;
      mret VNone
  | Raise e => lift (Raise e)
  end.

(** ** [main], after the arguments are parsed *)

Definition main (net : network) (member_id : string) (size : Z) : io unit :=
  print (Print "US Chess Rating Tracker");;
  print (Print (str_mul "-" 40));;
  print (Print (nl +:+ "Fetching data for member " +:+ member_id +:+ "..."));;
  data ← fetch_member_sections net member_id 0 size;
  if truthy data then
    _ ← display_sections data; mret ()
  else
    print (Print "Failed to fetch data. Please check your internet connection and member ID.").

(** ** Reading the output back

    The table, and the value interpolated after a given label, in what a run
    printed. *)

Fixpoint printed_table (out : list output) : option (list (list value)) :=
  match out with
  | [] => None
  | PrintTable table_data _ _ :: _ => Some table_data
  | _ :: out' => printed_table out'
  end.

Fixpoint printed_value (label : string) (out : list output) : option value :=
  match out with
  | [] => None
  | PrintF s v :: out' =>
      if String.eqb s label then Some v else printed_value label out'
  | _ :: out' => printed_value label out'
  end.

Definition printed_current_rating (out : list output) : option value :=
  printed_value (nl +:+ "Current Rating: ") out.

Definition printed_total_sections (out : list output) : option value :=
  printed_value "Total Sections: " out.

(** The three blocks [display_sections] prints for a section list. *)
Definition banner_lines : list output :=
  [Print (nl +:+ rule); Print "US CHESS RATING TRACKER"; Print rule].

Definition summary_lines (current_rating : value) (total_sections : Z)
  : list output :=
  [PrintF (nl +:+ "Current Rating: ") current_rating;
   PrintF "Total Sections: " (VInt total_sections)].

Definition table_lines (table_data : list (list value)) : list output :=
  [Print (nl +:+ rule); Print "TOURNAMENT SECTIONS (Most Recent First)";
   Print (rule +:+ nl); PrintTable table_data headers "grid"; Print ""].

(** ** Words of the specification *)

(** An optional integer rating, as the decoder hands it over. *)
Definition rating (r : option Z) : value :=
  match r with
  | Some n => VInt n
  | None => VNone
  end.

(** The sign-prefixed rendering of a difference: ["+"] before a positive
    one, the natural sign for a negative one, the literal ["0"] for zero. *)
Definition sign_prefixed (d : Z) : string :=
  match d with
  | Z0 => "0"
  | Zpos p => "+" +:+ pretty (Zpos p)
  | Zneg p => "-" +:+ pretty (Zpos p)
  end.

Definition is_digit (c : ascii) : bool :=
  match digit_of c with Some _ => true | None => false end.

(** The shape [YYYY-MM-DD]: ten characters, digits around two dashes. *)
Definition is_Y_m_d (s : string) : bool :=
  match s with
  | String y1 (String y2 (String y3 (String y4 (String a
      (String m1 (String m2 (String b (String d1 (String d2 ""))))))))) =>
      is_digit y1 && is_digit y2 && is_digit y3 && is_digit y4
      && Ascii.eqb a "-" && is_digit m1 && is_digit m2
      && Ascii.eqb b "-" && is_digit d1 && is_digit d2
  | _ => false
  end.

(** The YYYY-MM-DD representation of a date: the year in four digits, the
    month and the day in two. *)
Definition Y_m_d (y m d : Z) : string :=
  zero_padded 4 y +:+ "-" +:+ zero_padded 2 m +:+ "-" +:+ zero_padded 2 d.

(** A rating of the first rating record of a section is absent: there is no
    record, or the record has no such key, or [null] under it. *)
Definition rating_absent (section : gmap string value) (key : string) : bool :=
  match section !! "ratingRecords" with
  | None | Some (VList []) => true
  | Some (VList (VDict r :: _)) =>
      match r !! key with
      | None | Some VNone => true
      | Some _ => false
      end
  | Some _ => false
  end.

(** A section as the interface of the rating service describes it: the
    ratings of the first record are integers when present, the names are
    strings when present, the event is an object when present. *)
Definition optional_int (v : option value) : bool :=
  match v with
  | None | Some VNone | Some (VInt _) => true
  | Some _ => false
  end.

Definition optional_str (v : option value) : bool :=
  match v with
  | None | Some (VStr _) => true
  | Some _ => false
  end.

Definition well_formed_section (section : value) : bool :=
  match section with
  | VDict s =>
      match s !! "ratingRecords" with
      | None | Some (VList []) => true
      | Some (VList (VDict r :: _)) =>
          optional_int (r !! "preRating") && optional_int (r !! "postRating")
      | Some _ => false
      end
      && match s !! "event" with
         | None => true
         | Some (VDict e) => optional_str (e !! "name")
         | Some _ => false
         end
      && optional_str (s !! "sectionName")
  | _ => false
  end.

(** A section with every rating record after the first one dropped. *)
Definition keep_first_record (section : value) : value :=
  match section with
  | VDict s =>
      match s !! "ratingRecords" with
      | Some (VList (r :: _ :: _)) => VDict (<["ratingRecords" := VList [r]]> s)
      | _ => section
      end
  | _ => section
  end.

(** The document of the specification's example. *)
Definition example_doc : value :=
  VDict {[ "items" := VList [ VDict (list_to_map [
    ("ratingRecords", VList [ VDict (list_to_map [
       ("preRating", VInt 1500); ("postRating", VInt 1520)]) ]);
    ("ratingSystem", VStr "R");
    ("sectionName", VStr "Open");
    ("event", VDict (list_to_map [
       ("name", VStr "Spring Open");
       ("endDate", VStr "2024-03-10T00:00:00Z")])) ]) ] ]}.

(** A document with a section that has long names, no rating record and no
    rating system, and a section with two rating records. *)
Definition sample_sections : list value :=
  [ VDict (list_to_map [
      ("ratingRecords", VList []);
      ("sectionName", VStr "Under 1800 Reserve Section");
      ("event", VDict (list_to_map [
         ("name", VStr "Greater Boston Open Championship 2024");
         ("startDate", VStr "2024-06-01")])) ]);
    VDict (list_to_map [
      ("ratingRecords", VList [
         VDict (list_to_map [("preRating", VInt 1520); ("postRating", VInt 1498)]);
         VDict (list_to_map [("preRating", VInt 1400); ("postRating", VNone)]) ]);
      ("ratingSystem", VStr "Q");
      ("sectionName", VStr "Open");
      ("event", VDict (list_to_map [
         ("name", VStr "Club Quads");
         ("endDate", VStr "2024-05-12T00:00:00Z")])) ]) ].

Definition sample_doc : value := VDict {[ "items" := VList sample_sections ]}.

(** ** Output that only grows

    A computation [appends] when what it prints is added after what was
    printed before, whatever that was. *)
Definition appends {A} (m : io A) : Prop :=
  ∀ out, m out = ((m []).1, out ++ (m []).2).

(** The three lines [main] starts with. *)
Definition main_header (member_id : string) : list output :=
  [Print "US Chess Rating Tracker"; Print (str_mul "-" 40);
   Print (nl +:+ "Fetching data for member " +:+ member_id +:+ "...")].

Definition failure_line : output :=
  Print "Failed to fetch data. Please check your internet connection and member ID.".

(** The URL and the query of the one request. *)
Definition sections_url (member_id : string) : string :=
  "https://ratings-api.uschess.org/api/v1/members/" +:+ member_id +:+ "/sections".

Definition sections_query (offset size : Z) : list (string * Z) :=
  [("Offset", offset); ("Size", size)].

(** A result that is not an exception. *)
Definition returns {A} (r : result A) : bool :=
  match r with
  | Ok _ => true
  | Raise _ => false
  end.

(** A value that no subtraction accepts, whatever the other operand is. *)
Definition not_a_number (v : value) : bool :=
  match v with
  | VStr _ | VList _ | VDict _ => true
  | VNone | VBool _ | VInt _ => false
  end.

(** A section without an end date, and its event. *)
Definition open_event : gmap string value :=
  list_to_map [("name", VStr "Greater Boston Open Championship 2024");
               ("startDate", VStr "2024-06-01")].

Definition open_section : gmap string value :=
  list_to_map [("ratingRecords", VList []);
               ("sectionName", VStr "Under 1800 Reserve Section");
               ("event", VDict open_event)].

(** * Properties *)

(** ** [calculate_rating_change] *)

Example calculate_rating_change_gain :
  calculate_rating_change (VInt 1500) (VInt 1520) = Ok (VStr "+20").
Proof. reflexivity. Qed.

Example calculate_rating_change_loss :
  calculate_rating_change (VInt 1520) (VInt 1500) = Ok (VStr "-20").
Proof. reflexivity. Qed.

Example calculate_rating_change_text :
  calculate_rating_change (VStr "1500") (VInt 1520) = Raise TypeError.
Proof. reflexivity. Qed.

Lemma sign_prefixed_not_pending (d : Z) : sign_prefixed d ≠ "Pending".
Proof. by destruct d. Qed.

Lemma calculate_rating_change_int (b a : Z) :
  calculate_rating_change (VInt b) (VInt a) = Ok (VStr (sign_prefixed (a - b))).
Proof.
  unfold calculate_rating_change, py_sub; simpl.
  by destruct (a - b).
Qed.

(** C1 as written (the difference taken as before - after) fails: for a
    player who went from 1500 to 1520 the code answers "+20", the claim
    asks for "-20". *)
Lemma calculate_rating_change_before_minus_after_fails :
  calculate_rating_change (rating (Some 1500)) (rating (Some 1520)) = Ok (VStr "+20")
  ∧ sign_prefixed (1500 - 1520) = "-20"
  ∧ ¬ (∀ before after : Z,
         calculate_rating_change (rating (Some before)) (rating (Some after))
         = Ok (VStr (sign_prefixed (before - after)))).
Proof.
  split; [done | split; [done |]].
  intros H. by specialize (H 1500 1520).
Qed.

Lemma calculate_rating_change_rating (before after : option Z) :
  calculate_rating_change (rating before) (rating after)
  = Ok (VStr match before, after with
             | Some b, Some a => sign_prefixed (a - b)
             | _, _ => "Pending"
             end).
Proof.
  destruct before as [b|], after as [a|]; try done.
  apply calculate_rating_change_int.
Qed.

(** C1, amended: the answer is "Pending" exactly when a rating is absent;
    with both present it is the sign-prefixed decimal text of
    after - before; and equal ratings give "0". *)
Theorem calculate_rating_change_spec (before after : option Z) :
  calculate_rating_change (rating before) (rating after)
  = Ok (VStr match before, after with
             | Some b, Some a => sign_prefixed (a - b)
             | _, _ => "Pending"
             end)
  ∧ (calculate_rating_change (rating before) (rating after) = Ok (VStr "Pending")
     ↔ before = None ∨ after = None)
  ∧ (∀ x, before = Some x → after = Some x →
       calculate_rating_change (rating before) (rating after) = Ok (VStr "0")).
Proof.
  rewrite calculate_rating_change_rating.
  destruct before as [b|], after as [a|].
  - split; [done | split].
    + split.
      * intros [= H]. by destruct (sign_prefixed_not_pending _ H).
      * by intros [H | H].
    + intros x [= ->] [= ->]. by rewrite Z.sub_diag.
  - split; [done | split; [tauto | done]].
  - split; [done | split; [tauto | done]].
  - split; [done | split; [tauto | done]].
Qed.

Lemma calculate_rating_change_spec_witness :
  calculate_rating_change (rating (Some 1500)) (rating (Some 1500)) = Ok (VStr "0").
Proof.
  exact (proj2 (proj2 (calculate_rating_change_spec (Some 1500) (Some 1500)))
           1500 eq_refl eq_refl).
Defined.
(** ** [format_date] *)

Example format_date_utc :
  format_date (VStr "2024-03-10T00:00:00Z") = Ok (VStr "2024-03-10").
Proof. reflexivity. Qed.

Example format_date_offset :
  format_date (VStr "2023-12-31 23:59:59.500-05:00") = Ok (VStr "2023-12-31").
Proof. reflexivity. Qed.

Example format_date_no_such_day :
  format_date (VStr "2023-02-29T00:00:00Z") = Ok (VStr "2023-02-29T00:00:00Z").
Proof. reflexivity. Qed.

Example format_date_not_a_date :
  format_date (VStr "March 10, 2024") = Ok (VStr "March 10, 2024").
Proof. reflexivity. Qed.

Example format_date_year_999 :
  format_date (VStr "0999-01-01") = Ok (VStr "999-01-01").
Proof. reflexivity. Qed.

Example format_date_number : format_date (VInt 20240310) = Ok (VInt 20240310).
Proof. reflexivity. Qed.

Lemma truthy_str (s : string) : truthy (VStr s) = bool_decide (s ≠ "").
Proof. by destruct s. Qed.

(** The three ways out of [format_date] on a string, whatever the library
    does. *)
Lemma format_date_with_str (parse : string → result datetime)
    (strftime : datetime → string) (s : string) :
  format_date_with parse strftime (VStr s)
  = if bool_decide (s = "") then Ok (VStr "N/A")
    else match parse (str_replace "Z" "+00:00" s) with
         | Ok date => Ok (VStr (strftime date))
         | Raise _ => Ok (VStr s)
         end.
Proof.
  unfold format_date_with. rewrite truthy_str.
  destruct s as [|c s]; [done |].
  rewrite bool_decide_eq_true_2, bool_decide_eq_false_2 by done.
  cbn [negb py_replace mbind result_bind].
  by destruct (parse _).
Qed.

Lemma format_date_str (s : string) :
  format_date (VStr s)
  = if bool_decide (s = "") then Ok (VStr "N/A")
    else match fromisoformat (str_replace "Z" "+00:00" s) with
         | Ok date => Ok (VStr (strftime_Y_m_d date))
         | Raise _ => Ok (VStr s)
         end.
Proof. apply format_date_with_str. Qed.

Lemma is_digit_digit_char (n : Z) : is_digit (digit_char (n `mod` 10)) = true.
Proof.
  assert (0 ≤ n `mod` 10 < 10) as H by (apply Z.mod_pos_bound; lia).
  assert (n `mod` 10 ∈ [0; 1; 2; 3; 4; 5; 6; 7; 8; 9]) as Hin.
  { rewrite !elem_of_cons. lia. }
  rewrite !elem_of_cons, elem_of_nil in Hin.
  destruct Hin as [-> | [-> | [-> | [-> | [-> | [-> | [-> | [-> | [-> | [-> | []]]]]]]]]]];
    reflexivity.
Qed.

Lemma zero_padded_2 (n : Z) :
  zero_padded 2 n
  = String (digit_char ((n / 10) `mod` 10)) (String (digit_char (n `mod` 10)) "").
Proof. reflexivity. Qed.

Lemma zero_padded_4 (n : Z) :
  zero_padded 4 n
  = String (digit_char ((n / 10 / 10 / 10) `mod` 10))
      (String (digit_char ((n / 10 / 10) `mod` 10))
         (String (digit_char ((n / 10) `mod` 10))
            (String (digit_char (n `mod` 10)) ""))).
Proof. reflexivity. Qed.

(** Whatever the numbers, [Y_m_d] has the shape YYYY-MM-DD. *)
Lemma Y_m_d_shape (y m d : Z) : is_Y_m_d (Y_m_d y m d) = true.
Proof.
  unfold Y_m_d. rewrite zero_padded_4, !zero_padded_2.
  simpl.
  by rewrite !is_digit_digit_char.
Qed.

Lemma str_append_assoc (a b c : string) : (a +:+ b) +:+ c = a +:+ (b +:+ c).
Proof.
  induction a as [|x a IH]; [done |].
  change (String x ((a +:+ b) +:+ c) = String x (a +:+ b +:+ c)).
  by f_equal.
Qed.

Lemma str_append_nil_r (s : string) : s +:+ "" = s.
Proof.
  induction s as [|c s IH]; [done |].
  change (String c (s +:+ "") = String c s). by f_equal.
Qed.

Lemma zero_padded_cons (k : nat) (d y : Z) :
  0 ≤ d ≤ 9 → 0 ≤ y < 10 ^ Z.of_nat k →
  zero_padded (S k) (d * 10 ^ Z.of_nat k + y)
  = String (digit_char d) (zero_padded k y).
Proof.
  revert y. induction k as [|k IH]; intros y Hd Hy.
  - change (10 ^ Z.of_nat 0) with 1 in *. replace y with 0 by lia.
    cbn [zero_padded String.append].
    by replace ((d * 1 + 0) `mod` 10) with d by (rewrite Z.mod_small; lia).
  - rewrite Nat2Z.inj_succ, Z.pow_succ_r in * by lia.
    change (zero_padded (S (S k)) ?n)
      with (zero_padded (S k) (n / 10) +:+ String (digit_char (n `mod` 10)) "").
    replace ((d * (10 * 10 ^ Z.of_nat k) + y) / 10)
      with (d * 10 ^ Z.of_nat k + y / 10).
    2:{ replace (d * (10 * 10 ^ Z.of_nat k) + y)
          with (y + (d * 10 ^ Z.of_nat k) * 10) by lia.
        rewrite Z.div_add by lia. lia. }
    replace ((d * (10 * 10 ^ Z.of_nat k) + y) `mod` 10) with (y `mod` 10).
    2:{ replace (d * (10 * 10 ^ Z.of_nat k) + y)
          with (y + (d * 10 ^ Z.of_nat k) * 10) by lia.
        by rewrite Z.mod_add by lia. }
    rewrite IH; [done | done |].
    split; [apply Z.div_pos; lia | apply Z.div_lt_upper_bound; lia].
Qed.

(** *** [str] of a positive number is its digits *)

Lemma pretty_N_char_digit_char (n : N) :
  (n < 10)%N → pretty_N_char n = digit_char (Z.of_N n).
Proof.
  intros H. assert (n ∈ [0; 1; 2; 3; 4; 5; 6; 7; 8; 9]%N) as Hin.
  { rewrite !elem_of_cons. lia. }
  rewrite !elem_of_cons, elem_of_nil in Hin.
  destruct Hin as [-> | [-> | [-> | [-> | [-> | [-> | [-> | [-> | [-> | [-> | []]]]]]]]]]];
    reflexivity.
Qed.

Lemma pretty_N_go_digits (k : nat) (x : N) (s : string) :
  10 ^ Z.of_nat k ≤ Z.of_N x < 10 ^ Z.of_nat (S k) →
  pretty_N_go x s = zero_padded (S k) (Z.of_N x) +:+ s.
Proof.
  revert x s. induction k as [|k IH]; intros x s Hx.
  - change (10 ^ Z.of_nat 0) with 1 in Hx. change (10 ^ Z.of_nat 1) with 10 in Hx.
    rewrite pretty_N_go_step by lia.
    replace (x `div` 10)%N with 0%N.
    2:{ symmetry. apply N.div_small. lia. }
    rewrite pretty_N_go_0, pretty_N_char_digit_char by (apply N.mod_lt; lia).
    by rewrite N2Z.inj_mod.
  - rewrite !Nat2Z.inj_succ, !Z.pow_succ_r in * by lia.
    assert (0 < 10 ^ Z.of_nat k) as Hpow by (apply Z.pow_pos_nonneg; lia).
    rewrite pretty_N_go_step by lia.
    rewrite IH.
    2:{ rewrite N2Z.inj_div. change (Z.of_N 10) with 10.
        split; [apply Z.div_le_lower_bound; lia
               | apply Z.div_lt_upper_bound; lia]. }
    rewrite pretty_N_char_digit_char by (apply N.mod_lt; lia).
    rewrite N2Z.inj_div, N2Z.inj_mod. change (Z.of_N 10) with 10.
    change (zero_padded (S (S k)) ?n)
      with (zero_padded (S k) (n / 10) +:+ String (digit_char (n `mod` 10)) "").
    by rewrite str_append_assoc.
Qed.

Lemma str_int_digits (k : nat) (y : Z) :
  10 ^ Z.of_nat k ≤ y < 10 ^ Z.of_nat (S k) → str_int y = zero_padded (S k) y.
Proof.
  intros Hy. assert (0 < 10 ^ Z.of_nat k) as Hpow by (apply Z.pow_pos_nonneg; lia).
  destruct y as [|p|p]; try lia.
  unfold str_int, pretty, pretty_Z, pretty, pretty_positive, pretty, pretty_N.
  rewrite decide_False by done.
  rewrite (pretty_N_go_digits k) by done.
  apply str_append_nil_r.
Qed.

(** From the year 1000 on, [strftime] writes the date as YYYY-MM-DD. *)
Lemma strftime_Y_m_d_four_digits (date : datetime) :
  valid_datetime date = true → 1000 ≤ year date →
  strftime_Y_m_d date = Y_m_d (year date) (month date) (day date).
Proof.
  intros Hv Hy. unfold valid_datetime in Hv. apply bool_decide_eq_true in Hv.
  unfold strftime_Y_m_d, Y_m_d. by rewrite (str_int_digits 3) by (cbn; lia).
Qed.

Lemma digit_of_digit_char (d : Z) : 0 ≤ d ≤ 9 → digit_of (digit_char d) = Some d.
Proof.
  intros H. assert (d ∈ [0; 1; 2; 3; 4; 5; 6; 7; 8; 9]) as Hin.
  { rewrite !elem_of_cons. lia. }
  rewrite !elem_of_cons, elem_of_nil in Hin.
  destruct Hin as [-> | [-> | [-> | [-> | [-> | [-> | [-> | [-> | [-> | [-> | []]]]]]]]]]];
    reflexivity.
Qed.

Lemma parse_digits_zero_padded (k : nat) (acc y : Z) (rest : string) :
  0 ≤ y < 10 ^ Z.of_nat k →
  parse_digits k acc (zero_padded k y +:+ rest)
  = Some (acc * 10 ^ Z.of_nat k + y, rest).
Proof.
  revert acc y. induction k as [|k IH]; intros acc y Hy.
  - change (10 ^ Z.of_nat 0) with 1 in *. cbn. do 2 f_equal. lia.
  - rewrite Nat2Z.inj_succ, Z.pow_succ_r in * by lia.
    assert (0 < 10 ^ Z.of_nat k) as Hpow by (apply Z.pow_pos_nonneg; lia).
    pose proof (Z.div_mod y (10 ^ Z.of_nat k) ltac:(lia)) as Hdm.
    pose proof (Z.mod_pos_bound y (10 ^ Z.of_nat k) Hpow) as Hmod.
    assert (0 ≤ y / 10 ^ Z.of_nat k ≤ 9) as Hd.
    { split; [apply Z.div_pos; lia |].
      apply Z.lt_succ_r, Z.div_lt_upper_bound; lia. }
    rewrite Hdm at 1. rewrite (Z.mul_comm (10 ^ Z.of_nat k)).
    rewrite zero_padded_cons by done.
    change (String ?c ?a +:+ rest) with (String c (a +:+ rest)).
    cbn [parse_digits]. rewrite digit_of_digit_char by done.
    cbn [mbind option_bind]. rewrite IH by done. do 2 f_equal. lia.
Qed.

Lemma str_replace_app (old : ascii) (new a b : string) :
  str_replace old new (a +:+ b)
  = str_replace old new a +:+ str_replace old new b.
Proof.
  induction a as [|c a IH]; [done |].
  change (String c a +:+ b) with (String c (a +:+ b)).
  cbn [str_replace]. rewrite IH.
  destruct (Ascii.eqb c old); [by rewrite str_append_assoc | done].
Qed.

Lemma str_replace_zero_padded (k : nat) (n : Z) :
  str_replace "Z" "+00:00" (zero_padded k n) = zero_padded k n.
Proof.
  revert n. induction k as [|k IH]; intros n; [done |].
  cbn [zero_padded]. rewrite str_replace_app, IH. f_equal.
  cbn [str_replace].
  destruct (Ascii.eqb_spec (digit_char (n `mod` 10)) "Z") as [E |]; [| done].
  pose proof (is_digit_digit_char n) as H. by rewrite E in H.
Qed.

Lemma parse_isoformat_valid (s : string) (date : datetime) :
  parse_isoformat s = Some date → valid_datetime date = true.
Proof.
  unfold parse_isoformat. intros H.
  destruct (parse_isoformat_date s) as [[[[y m] d] rest]|];
    cbn [mbind option_bind] in H; [| done].
  destruct (match rest with "" => _ | String _ t => _ end)
    as [[[[[hh mm] ss] ff] off]|]; cbn [mbind option_bind] in H; [| done].
  destruct (valid_datetime _) eqn:E; [| done]. by injection H as <-.
Qed.

Lemma fromisoformat_valid (s : string) (date : datetime) :
  fromisoformat s = Ok date → valid_datetime date = true.
Proof.
  unfold fromisoformat. destruct (parse_isoformat s) as [dt|] eqn:E; [| done].
  intros [= <-]. by apply (parse_isoformat_valid s).
Qed.

(** C10: [format_date] answers a string for every string, no exception
    leaves it, and the empty string is answered by "N/A", not by itself. *)
Theorem format_date_total :
  (∀ date_string : string, ∃ shown : string,
     format_date (VStr date_string) = Ok (VStr shown))
  ∧ format_date (VStr "") = Ok (VStr "N/A")
  ∧ format_date (VStr "") ≠ Ok (VStr "").
Proof.
  split; [| done].
  intros s. rewrite format_date_str.
  case_bool_decide; [by eexists |].
  destruct (fromisoformat _); by eexists.
Qed.

(** No value of the model makes [format_date] raise either. *)
Lemma format_date_never_raises (date_string : value) :
  ∃ shown, format_date date_string = Ok shown.
Proof.
  unfold format_date, format_date_with.
  destruct (negb (truthy date_string)); [by eexists |].
  destruct (_ ≫= _); by eexists.
Qed.

(** C2 as written fails twice.  The empty string is unparseable and yet is
    not mapped to itself; and a well-formed date before the year 1000 is
    not mapped to the shape YYYY-MM-DD, because [strftime] does not fill
    the year. *)
Lemma format_date_claim_fails :
  (fromisoformat (str_replace "Z" "+00:00" "") = Raise ValueError
   ∧ format_date (VStr "") = Ok (VStr "N/A")
   ∧ format_date (VStr "") ≠ Ok (VStr ""))
  ∧ (returns (fromisoformat (str_replace "Z" "+00:00" "0999-01-01")) = true
     ∧ format_date (VStr "0999-01-01") = Ok (VStr "999-01-01")
     ∧ is_Y_m_d "999-01-01" = false).
Proof. by repeat split. Qed.

(** C2, amended.  Whatever texts the installed [fromisoformat] accepts, as
    long as the dates it returns are valid and [strftime] writes a year
    from 1000 on in four digits: the empty string is mapped to "N/A"; a
    non-empty string that is parsed (after [Z] is rewritten) to a date from
    the year 1000 on is mapped to that date as YYYY-MM-DD; and a non-empty
    string that the parser rejects is mapped to itself. *)
Theorem format_date_spec
    (parse : string → result datetime) (strftime : datetime → string)
    (date_string : string) :
  (∀ s date, parse s = Ok date → valid_datetime date = true) →
  (∀ date, valid_datetime date = true → 1000 ≤ year date →
     strftime date = Y_m_d (year date) (month date) (day date)) →
  let shown := format_date_with parse strftime (VStr date_string) in
  let parsed := parse (str_replace "Z" "+00:00" date_string) in
  (date_string = "" → shown = Ok (VStr "N/A"))
  ∧ (∀ date, date_string ≠ "" → parsed = Ok date → 1000 ≤ year date →
       shown = Ok (VStr (Y_m_d (year date) (month date) (day date)))
       ∧ is_Y_m_d (Y_m_d (year date) (month date) (day date)) = true)
  ∧ (∀ e, date_string ≠ "" → parsed = Raise e → shown = Ok (VStr date_string)).
Proof.
  intros Hvalid Hwrite shown parsed. subst shown parsed.
  rewrite format_date_with_str. split; [| split].
  - by intros ->.
  - intros date Hne Hp Hy. rewrite bool_decide_eq_false_2, Hp by done.
    rewrite (Hwrite date (Hvalid _ _ Hp) Hy). split; [done | apply Y_m_d_shape].
  - intros e Hne Hp. by rewrite bool_decide_eq_false_2, Hp by done.
Qed.

Lemma format_date_spec_witness :
  format_date (VStr "2024-03-10T00:00:00Z") = Ok (VStr (Y_m_d 2024 3 10))
  ∧ is_Y_m_d (Y_m_d 2024 3 10) = true.
Proof.
  refine (proj1 (proj2 (format_date_spec fromisoformat strftime_Y_m_d
                          "2024-03-10T00:00:00Z"
                          fromisoformat_valid strftime_Y_m_d_four_digits))
            (mk_datetime 2024 3 10 0 0 0 0 (Some 0)) _ _ _);
    [discriminate | reflexivity | cbn; lia].
Defined.

(** *** The dates the model parser accepts *)

(** A calendar date from the year 1000 on in the extended format, alone or
    with the midnight UTC time stamp, is shown as the date. *)
Lemma format_date_calendar_date (y m d : Z) (time : string) :
  1000 ≤ y ≤ 9999 → 1 ≤ m ≤ 12 → 1 ≤ d ≤ days_in_month y m →
  time ∈ [""; "T00:00:00"; "T00:00:00Z"; "T00:00:00+00:00"] →
  format_date (VStr (Y_m_d y m d +:+ time)) = Ok (VStr (Y_m_d y m d)).
Proof.
  intros Hy Hm Hd Htime.
  assert (∃ hh mm ss ff off,
            match str_replace "Z" "+00:00" time with
            | "" => Some (0, 0, 0, 0, None)
            | String _ t => parse_isoformat_time t
            end = Some (hh, mm, ss, ff, off)
            ∧ 0 ≤ hh ≤ 23 ∧ 0 ≤ mm ≤ 59 ∧ 0 ≤ ss ≤ 59 ∧ 0 ≤ ff ≤ 999999)
    as (hh & mm & ss & ff & off & Ht & Hhh & Hmm & Hss & Hff).
  { rewrite !elem_of_cons, elem_of_nil in Htime.
    destruct Htime as [-> | [-> | [-> | [-> | []]]]];
      [exists 0, 0, 0, 0, None | exists 0, 0, 0, 0, None
      | exists 0, 0, 0, 0, (Some 0) | exists 0, 0, 0, 0, (Some 0)];
      (split; [reflexivity | lia]). }
  rewrite format_date_str.
  rewrite bool_decide_eq_false_2.
  2:{ unfold Y_m_d. rewrite zero_padded_4. done. }
  assert (parse_isoformat (str_replace "Z" "+00:00" (Y_m_d y m d +:+ time))
          = Some (mk_datetime y m d hh mm ss ff off)) as Hp.
  { unfold Y_m_d. rewrite !str_append_assoc, !str_replace_app.
    rewrite !str_replace_zero_padded.
    change (str_replace "Z" "+00:00" "-") with "-".
    unfold parse_isoformat, parse_isoformat_date.
    rewrite (parse_digits_zero_padded 4) by (change (10 ^ Z.of_nat 4) with 10000; lia).
    cbn [mbind option_bind]. change (expect "-" ("-" +:+ ?r)) with (Some r).
    cbn [mbind option_bind].
    rewrite (parse_digits_zero_padded 2) by (change (10 ^ Z.of_nat 2) with 100; lia).
    cbn [mbind option_bind]. change (expect "-" ("-" +:+ ?r)) with (Some r).
    cbn [mbind option_bind].
    rewrite (parse_digits_zero_padded 2).
    2:{ change (10 ^ Z.of_nat 2) with 100. unfold days_in_month in Hd.
        repeat case_match; lia. }
    cbn [mbind option_bind]. rewrite Ht. cbn [mbind option_bind].
    rewrite !Z.mul_0_l, !Z.add_0_l.
    unfold valid_datetime. by rewrite bool_decide_eq_true_2 by (cbn; lia). }
  unfold fromisoformat. rewrite Hp. f_equal. f_equal.
  apply (strftime_Y_m_d_four_digits (mk_datetime y m d hh mm ss ff off));
    [| cbn; lia].
  unfold valid_datetime. by rewrite bool_decide_eq_true_2 by (cbn; lia).
Qed.

(** ** [display_sections] *)

Example display_sections_list_document :
  run (display_sections (VList [VStr "items"])) = (Raise TypeError, []).
Proof. reflexivity. Qed.

Example display_sections_text_document :
  run (display_sections (VStr "Not Found"))
  = (Ok VNone, [Print "No data available"])
  ∧ run (display_sections (VStr "no items")) = (Raise TypeError, []).
Proof. by split. Qed.

Example display_sections_null_section :
  run (display_sections (VDict {[ "items" := VList [VNone] ]}))
  = (Raise AttributeError, banner_lines).
Proof. reflexivity. Qed.

Lemma truthy_dict_lookup (d : gmap string value) (k : string) (v : value) :
  d !! k = Some v → truthy (VDict d) = true.
Proof.
  intros H. simpl. rewrite bool_decide_eq_false_2; [done |].
  intros ->. by rewrite lookup_empty in H.
Qed.

(** The run on a document with a non-empty section list: the banner, then
    the summary if [current_rating] returns, then the table if the loop
    does. *)
Lemma display_sections_list (d : gmap string value) (s : value) (ss : list value) :
  d !! "items" = Some (VList (s :: ss)) →
  run (display_sections (VDict d))
  = match current_rating s with
    | Raise e => (Raise e, banner_lines)
    | Ok cr =>
        let summary := summary_lines cr (Z.of_nat (length (s :: ss))) in
        match for_sections (s :: ss) [] with
        | Raise e => (Raise e, banner_lines ++ summary)
        | Ok table_data =>
            (Ok VNone, banner_lines ++ summary ++ table_lines table_data)
        end
    end.
Proof.
  intros H. unfold display_sections, run.
  rewrite (truthy_dict_lookup _ _ _ H).
  unfold py_contains, py_getitem. rewrite H.
  rewrite bool_decide_eq_true_2 by eauto.
  unfold mbind, io_bind, result_bind, mret, io_ret, lift, print.
  cbn -[rule nl current_rating for_sections String.append].
  destruct (current_rating s) as [cr|e]; [| done].
  cbn -[rule nl current_rating for_sections String.append].
  destruct (for_sections (s :: ss) []) as [rows|e]; done.
Qed.

Lemma display_sections_empty_list (d : gmap string value) :
  d !! "items" = Some (VList []) →
  run (display_sections (VDict d))
  = (Ok VNone, [Print "No tournament sections found"]).
Proof.
  intros H. unfold display_sections, run.
  rewrite (truthy_dict_lookup _ _ _ H).
  unfold py_contains, py_getitem. rewrite H.
  by rewrite bool_decide_eq_true_2 by eauto.
Qed.

Lemma display_sections_no_items (d : gmap string value) :
  d !! "items" = None →
  run (display_sections (VDict d)) = (Ok VNone, [Print "No data available"]).
Proof.
  intros H. unfold display_sections, run, py_contains. rewrite H.
  rewrite (bool_decide_eq_false_2 (is_Some None)) by (by intros [? ?]).
  by destruct (truthy (VDict d)).
Qed.

(** The loop returns the rows of the sections, in order, after the rows it
    started with. *)
Lemma for_sections_Ok (sections : list value) (acc table_data : list (list value)) :
  for_sections sections acc = Ok table_data →
  ∃ rows, table_data = acc ++ rows
          ∧ Forall2 (λ section row, section_row section = Ok row) sections rows.
Proof.
  revert acc. induction sections as [|s ss IH]; intros acc H.
  - injection H as <-. exists []. by rewrite app_nil_r.
  - cbn [for_sections] in H.
    destruct (section_row s) as [row|] eqn:Hrow; [| done].
    cbn [mbind result_bind] in H.
    apply IH in H as (rows & -> & Hrows).
    exists (row :: rows). split; [by rewrite <- app_assoc | by constructor].
Qed.

Lemma printed_table_lines (cr : value) (n : Z) (table_data : list (list value)) :
  printed_table (banner_lines ++ summary_lines cr n ++ table_lines table_data)
  = Some table_data.
Proof. reflexivity. Qed.

Lemma printed_summary_lines (cr : value) (n : Z) (rest : list output) :
  printed_current_rating (banner_lines ++ summary_lines cr n ++ rest) = Some cr
  ∧ printed_total_sections (banner_lines ++ summary_lines cr n ++ rest)
    = Some (VInt n).
Proof. split; reflexivity. Qed.

(** Every row of the printed table is the [section_row] of the section at
    the same place. *)
Lemma display_sections_rows (d : gmap string value) (sections : list value)
    (out : list output) (table_data : list (list value)) :
  d !! "items" = Some (VList sections) →
  run (display_sections (VDict d)) = (Ok VNone, out) →
  printed_table out = Some table_data →
  Forall2 (λ section row, section_row section = Ok row) sections table_data.
Proof.
  intros Hitems Hrun Htable. destruct sections as [|s ss].
  - rewrite (display_sections_empty_list _ Hitems) in Hrun.
    injection Hrun as <-. done.
  - rewrite (display_sections_list _ _ _ Hitems) in Hrun.
    destruct (current_rating s) as [cr|]; [| done]. cbv zeta in Hrun.
    destruct (for_sections (s :: ss) []) as [rows|] eqn:Hloop; [| done].
    injection Hrun as <-.
    change (Some rows = Some table_data) in Htable. injection Htable as <-.
    by apply for_sections_Ok in Hloop as (rows' & -> & ?).
Qed.

(** C3: the example of the specification.  The run ends normally, the
    table has the one row
    ["2024-03-10", "Spring Open", "Open", "R", 1500, 1520, "+20"], the
    summary shows the current rating 1520 and 1 section. *)
Theorem display_sections_example :
  let '(returned, out) := run (display_sections example_doc) in
  returned = Ok VNone
  ∧ printed_table out
    = Some [[VStr "2024-03-10"; VStr "Spring Open"; VStr "Open"; VStr "R";
             VInt 1500; VInt 1520; VStr "+20"]]
  ∧ printed_current_rating out = Some (VInt 1520)
  ∧ printed_total_sections out = Some (VInt 1).
Proof. vm_compute. by repeat split. Qed.

(** C4: for a document that is absent, or has no [items] key, or has an
    empty [items] list, the run prints its one message and returns; no
    table and no summary line is printed. *)
Theorem display_sections_no_data (data : value) (d : gmap string value) :
  data = VNone
  ∨ data = VDict d ∧ (d !! "items" = None ∨ d !! "items" = Some (VList [])) →
  ∃ message,
    run (display_sections data) = (Ok VNone, [Print message])
    ∧ (message = "No data available" ∨ message = "No tournament sections found")
    ∧ printed_table [Print message] = None
    ∧ printed_current_rating [Print message] = None
    ∧ printed_total_sections [Print message] = None.
Proof.
  intros [-> | [-> [H | H]]].
  - exists "No data available". split; [done | split; [by left | done]].
  - exists "No data available". rewrite (display_sections_no_items _ H).
    split; [done | split; [by left | done]].
  - exists "No tournament sections found".
    rewrite (display_sections_empty_list _ H).
    split; [done | split; [by right | done]].
Qed.

Lemma display_sections_no_data_witness :
  ∃ message,
    run (display_sections (VDict {[ "items" := VList [] ]}))
    = (Ok VNone, [Print message])
    ∧ (message = "No data available" ∨ message = "No tournament sections found")
    ∧ printed_table [Print message] = None
    ∧ printed_current_rating [Print message] = None
    ∧ printed_total_sections [Print message] = None.
Proof.
  apply (display_sections_no_data _ {[ "items" := VList [] ]}).
  right. split; [reflexivity | right; reflexivity].
Defined.

(** ** The rows of the table *)

(** [section_row] on a dict, with the [get]s of the section resolved. *)
Lemma section_row_dict (s : gmap string value) :
  section_row (VDict s)
  = ('(rating_before, rating_after) ←
       first_record_ratings (from_option id (VList []) (s !! "ratingRecords"));
     change ← calculate_rating_change rating_before rating_after;
     let event := from_option id (VDict ∅) (s !! "event") in
     event_name ← py_get event "name" (VStr "N/A");
     end_date ← py_get event "endDate" VNone;
     event_date ← py_or end_date (py_get event "startDate" (VStr ""));
     date ← format_date event_date;
     tournament ← py_slice_to 30 event_name;
     section_name ←
       py_slice_to 20 (from_option id (VStr "N/A") (s !! "sectionName"));
     mret [date; tournament; section_name;
           from_option id (VStr "R") (s !! "ratingSystem");
           if is_none rating_before then VStr "N/A" else rating_before;
           if is_none rating_after then VStr "Pending" else rating_after;
           change]).
Proof. reflexivity. Qed.

(** Splitting [r ≫= k = Ok b] into the two steps that returned. *)
Lemma result_bind_Ok {A B} (r : result A) (k : A → result B) (b : B) :
  r ≫= k = Ok b → ∃ a, r = Ok a ∧ k a = Ok b.
Proof. destruct r as [a|]; [by exists a | done]. Qed.

Ltac bind_inv H :=
  repeat match type of H with
         | _ ≫= _ = Ok _ =>
             let a := fresh "x" in
             let E := fresh "E" in
             apply result_bind_Ok in H as (a & E & H)
         | (let _ := _ in _) = Ok _ => cbv zeta in H
         end.

(** What a returned row holds, cell by cell. *)
Lemma section_row_cells (s : gmap string value) (row : list value) :
  section_row (VDict s) = Ok row →
  ∃ rating_before rating_after change event_name date tournament section_name,
    first_record_ratings (from_option id (VList []) (s !! "ratingRecords"))
    = Ok (rating_before, rating_after)
    ∧ calculate_rating_change rating_before rating_after = Ok change
    ∧ py_get (from_option id (VDict ∅) (s !! "event")) "name" (VStr "N/A")
      = Ok event_name
    ∧ py_slice_to 30 event_name = Ok tournament
    ∧ py_slice_to 20 (from_option id (VStr "N/A") (s !! "sectionName"))
      = Ok section_name
    ∧ row = [date; tournament; section_name;
             from_option id (VStr "R") (s !! "ratingSystem");
             if is_none rating_before then VStr "N/A" else rating_before;
             if is_none rating_after then VStr "Pending" else rating_after;
             change].
Proof.
  rewrite section_row_dict. intros H.
  apply result_bind_Ok in H as ([rb ra] & E1 & H).
  bind_inv H. injection H as <-.
  by eexists _, _, _, _, _, _, _.
Qed.

Lemma str_take_length_le (n : nat) (s : string) :
  (String.length s ≤ n)%nat → str_take n s = s.
Proof.
  revert s. induction n as [|n IH]; intros [|c s] H; simpl in *; try done; [lia |].
  rewrite IH; [done | lia].
Qed.

Lemma str_take_length_gt (n : nat) (s : string) :
  (n < String.length s)%nat →
  String.length (str_take n s) = n ∧ ∃ rest, s = str_take n s +:+ rest.
Proof.
  revert s. induction n as [|n IH]; intros [|c s] H; simpl in *; try lia.
  - split; [done | by eexists].
  - destruct (IH s) as [Hlen [rest Hrest]]; [lia |].
    split; [by rewrite Hlen | exists rest].
    change (String c s = String c (str_take n s +:+ rest)). by f_equal.
Qed.

Example sample_doc_table :
  printed_table (run (display_sections sample_doc)).2
  = Some [[VStr "2024-06-01"; VStr "Greater Boston Open Championsh";
           VStr "Under 1800 Reserve S"; VStr "R"; VStr "N/A"; VStr "Pending";
           VStr "Pending"];
          [VStr "2024-05-12"; VStr "Club Quads"; VStr "Open"; VStr "Q";
           VInt 1520; VInt 1498; VStr "-22"]].
Proof. vm_compute. reflexivity. Qed.

(** C7: in every row of the printed table, an event name of more than 30
    characters is cut to its first 30 and a section name of more than 20 to
    its first 20; shorter names are shown as they are. *)
Theorem display_sections_truncates
    (d : gmap string value) (sections : list value) (out : list output)
    (table_data : list (list value)) (i : nat)
    (s e : gmap string value) (row : list value) (name section_name : string) :
  d !! "items" = Some (VList sections) →
  run (display_sections (VDict d)) = (Ok VNone, out) →
  printed_table out = Some table_data →
  sections !! i = Some (VDict s) →
  table_data !! i = Some row →
  s !! "event" = Some (VDict e) →
  e !! "name" = Some (VStr name) →
  s !! "sectionName" = Some (VStr section_name) →
  ∃ shown_name shown_section,
    row !! 1%nat = Some (VStr shown_name)
    ∧ row !! 2%nat = Some (VStr shown_section)
    ∧ ((30 < String.length name)%nat →
       String.length shown_name = 30%nat ∧ ∃ rest, name = shown_name +:+ rest)
    ∧ ((String.length name ≤ 30)%nat → shown_name = name)
    ∧ ((20 < String.length section_name)%nat →
       String.length shown_section = 20%nat
       ∧ ∃ rest, section_name = shown_section +:+ rest)
    ∧ ((String.length section_name ≤ 20)%nat → shown_section = section_name).
Proof.
  intros Hitems Hrun Htable Hsec Hrow Hevent Hname Hsection.
  pose proof (display_sections_rows _ _ _ _ Hitems Hrun Htable) as Hrows.
  destruct (Forall2_lookup_l _ _ _ _ _ Hrows Hsec) as (row' & Hrow' & Hcells).
  rewrite Hrow in Hrow'. injection Hrow' as <-.
  apply section_row_cells in Hcells
    as (rb & ra & change & event_name & date & t & sn & _ & _ & He & Ht & Hs & ->).
  rewrite Hevent in He. cbn [from_option id py_get] in He. rewrite Hname in He.
  injection He as <-.
  rewrite Hsection in Hs. cbn [from_option id py_slice_to] in Hs, Ht.
  injection Ht as <-. injection Hs as <-.
  exists (str_take 30 name), (str_take 20 section_name).
  split; [done | split; [done |]].
  split; [apply str_take_length_gt |].
  split; [apply str_take_length_le |].
  split; [apply str_take_length_gt | apply str_take_length_le].
Qed.

Lemma display_sections_truncates_witness :
  ∃ shown_name shown_section,
    [VStr "2024-06-01"; VStr "Greater Boston Open Championsh";
     VStr "Under 1800 Reserve S"; VStr "R"; VStr "N/A"; VStr "Pending";
     VStr "Pending"] !! 1%nat = Some (VStr shown_name)
    ∧ [VStr "2024-06-01"; VStr "Greater Boston Open Championsh";
       VStr "Under 1800 Reserve S"; VStr "R"; VStr "N/A"; VStr "Pending";
       VStr "Pending"] !! 2%nat = Some (VStr shown_section)
    ∧ ((30 < String.length "Greater Boston Open Championship 2024")%nat →
       String.length shown_name = 30%nat
       ∧ ∃ rest, "Greater Boston Open Championship 2024" = shown_name +:+ rest)
    ∧ ((String.length "Greater Boston Open Championship 2024" ≤ 30)%nat →
       shown_name = "Greater Boston Open Championship 2024")
    ∧ ((20 < String.length "Under 1800 Reserve Section")%nat →
       String.length shown_section = 20%nat
       ∧ ∃ rest, "Under 1800 Reserve Section" = shown_section +:+ rest)
    ∧ ((String.length "Under 1800 Reserve Section" ≤ 20)%nat →
       shown_section = "Under 1800 Reserve Section").
Proof.
  apply (display_sections_truncates
           {[ "items" := VList sample_sections ]} sample_sections
           (run (display_sections sample_doc)).2
           [[VStr "2024-06-01"; VStr "Greater Boston Open Championsh";
             VStr "Under 1800 Reserve S"; VStr "R"; VStr "N/A"; VStr "Pending";
             VStr "Pending"];
            [VStr "2024-05-12"; VStr "Club Quads"; VStr "Open"; VStr "Q";
             VInt 1520; VInt 1498; VStr "-22"]]
           0
           (list_to_map [
              ("ratingRecords", VList []);
              ("sectionName", VStr "Under 1800 Reserve Section");
              ("event", VDict (list_to_map [
                 ("name", VStr "Greater Boston Open Championship 2024");
                 ("startDate", VStr "2024-06-01")])) ])
           (list_to_map [
              ("name", VStr "Greater Boston Open Championship 2024");
              ("startDate", VStr "2024-06-01")]));
    vm_compute; reflexivity.
Defined.

(** A rating that is absent in the document is [None] in the loop. *)
Lemma first_record_ratings_absent (s : gmap string value) (rb ra : value) :
  first_record_ratings (from_option id (VList []) (s !! "ratingRecords"))
  = Ok (rb, ra) →
  (rating_absent s "preRating" = true → rb = VNone)
  ∧ (rating_absent s "postRating" = true → ra = VNone).
Proof.
  unfold rating_absent.
  destruct (s !! "ratingRecords") as [[| | | |[|[| | | | |r] rest]|]|];
    cbn; intros H; try (injection H as <- <-); try done.
  split.
  - destruct (r !! "preRating") as [[]|]; try done;
      destruct (r !! "postRating"); by injection H as <- <-.
  - destruct (r !! "postRating") as [[]|]; try done;
      destruct (r !! "preRating"); by injection H as <- <-.
Qed.

(** C8: in every row of the printed table, the rating type is "R" when
    the section has no [ratingSystem], Before is "N/A" when the pre-rating
    is absent, After is "Pending" when the post-rating is absent, and the
    two defaults differ. *)
Theorem display_sections_defaults
    (d : gmap string value) (sections : list value) (out : list output)
    (table_data : list (list value)) (i : nat)
    (s : gmap string value) (row : list value) :
  d !! "items" = Some (VList sections) →
  run (display_sections (VDict d)) = (Ok VNone, out) →
  printed_table out = Some table_data →
  sections !! i = Some (VDict s) →
  table_data !! i = Some row →
  (s !! "ratingSystem" = None → row !! 3%nat = Some (VStr "R"))
  ∧ (rating_absent s "preRating" = true → row !! 4%nat = Some (VStr "N/A"))
  ∧ (rating_absent s "postRating" = true → row !! 5%nat = Some (VStr "Pending"))
  ∧ VStr "N/A" ≠ VStr "Pending".
Proof.
  intros Hitems Hrun Htable Hsec Hrow.
  pose proof (display_sections_rows _ _ _ _ Hitems Hrun Htable) as Hrows.
  destruct (Forall2_lookup_l _ _ _ _ _ Hrows Hsec) as (row' & Hrow' & Hcells).
  rewrite Hrow in Hrow'. injection Hrow' as <-.
  apply section_row_cells in Hcells
    as (rb & ra & change & event_name & date & t & sn & Hr & _ & _ & _ & _ & ->).
  apply first_record_ratings_absent in Hr as [Hpre Hpost].
  split; [by intros -> |].
  split; [by intros ->%Hpre |].
  split; [by intros ->%Hpost | done].
Qed.

Lemma display_sections_defaults_witness :
  let row := [VStr "2024-06-01"; VStr "Greater Boston Open Championsh";
              VStr "Under 1800 Reserve S"; VStr "R"; VStr "N/A";
              VStr "Pending"; VStr "Pending"] in
  row !! 3%nat = Some (VStr "R")
  ∧ row !! 4%nat = Some (VStr "N/A")
  ∧ row !! 5%nat = Some (VStr "Pending").
Proof.
  destruct (display_sections_defaults
           {[ "items" := VList sample_sections ]} sample_sections
           (run (display_sections sample_doc)).2
           [[VStr "2024-06-01"; VStr "Greater Boston Open Championsh";
             VStr "Under 1800 Reserve S"; VStr "R"; VStr "N/A"; VStr "Pending";
             VStr "Pending"];
            [VStr "2024-05-12"; VStr "Club Quads"; VStr "Open"; VStr "Q";
             VInt 1520; VInt 1498; VStr "-22"]]
           0
           (list_to_map [
              ("ratingRecords", VList []);
              ("sectionName", VStr "Under 1800 Reserve Section");
              ("event", VDict (list_to_map [
                 ("name", VStr "Greater Boston Open Championship 2024");
                 ("startDate", VStr "2024-06-01")])) ])
           [VStr "2024-06-01"; VStr "Greater Boston Open Championsh";
            VStr "Under 1800 Reserve S"; VStr "R"; VStr "N/A";
            VStr "Pending"; VStr "Pending"])
    as (H3 & H4 & H5 & _); [vm_compute; reflexivity .. |].
  intros row. split; [| split].
  - apply H3. vm_compute; reflexivity.
  - apply H4. vm_compute; reflexivity.
  - apply H5. vm_compute; reflexivity.
Defined.

(** ** Only the first rating record counts *)

Example sample_doc_second_record_dropped :
  run (display_sections (VDict {[ "items" := VList (keep_first_record <$> sample_sections) ]}))
  = run (display_sections sample_doc).
Proof. vm_compute. reflexivity. Qed.

Lemma section_row_keep_first_record (section : value) :
  section_row (keep_first_record section) = section_row section.
Proof.
  destruct section as [| | | | |s]; try done. unfold keep_first_record.
  destruct (s !! "ratingRecords") as [[| | | |[|r [|r2 rest]]|]|] eqn:E; try done.
  rewrite !section_row_dict.
  rewrite lookup_insert_eq, !lookup_insert_ne, E by done.
  reflexivity.
Qed.

Lemma current_rating_keep_first_record (section : value) :
  current_rating (keep_first_record section) = current_rating section.
Proof.
  destruct section as [| | | | |s]; try done. unfold keep_first_record.
  destruct (s !! "ratingRecords") as [[| | | |[|r [|r2 rest]]|]|] eqn:E; try done.
  unfold current_rating, py_get.
  rewrite lookup_insert_eq, E. reflexivity.
Qed.

Lemma for_sections_keep_first_record (sections : list value)
    (acc : list (list value)) :
  for_sections (keep_first_record <$> sections) acc = for_sections sections acc.
Proof.
  revert acc. induction sections as [|s ss IH]; intros acc; [done |].
  cbn [fmap list_fmap for_sections].
  rewrite section_row_keep_first_record.
  destruct (section_row s) as [row|]; [| done]. apply IH.
Qed.

(** C9: dropping every rating record after the first one of each section
    changes neither a row (so neither Before, After nor Change), nor the
    current rating of the summary, nor anything else the run prints. *)
Theorem display_sections_first_record_only :
  (∀ section, section_row (keep_first_record section) = section_row section)
  ∧ (∀ section,
       current_rating (keep_first_record section) = current_rating section)
  ∧ (∀ (d : gmap string value) (sections : list value),
       run (display_sections
              (VDict (<["items" := VList (keep_first_record <$> sections)]> d)))
       = run (display_sections (VDict (<["items" := VList sections]> d)))).
Proof.
  split; [apply section_row_keep_first_record |].
  split; [apply current_rating_keep_first_record |].
  intros d [|s ss].
  - by rewrite !(display_sections_empty_list _ (lookup_insert_eq _ _ _)).
  - rewrite fmap_cons.
    rewrite !(display_sections_list _ _ _ (lookup_insert_eq _ _ _)).
    rewrite current_rating_keep_first_record.
    rewrite <- fmap_cons, for_sections_keep_first_record.
    by rewrite length_fmap.
Qed.

(** ** The current rating of the summary *)

(** C6 as written fails twice.  For an empty section list the run prints
    its message and no summary, so no current rating is shown, "N/A" or
    other; and a post-rating of 0 is passed over by the [or] chain, so the
    summary shows the pre-rating instead of the post-rating. *)
Lemma current_rating_claim_fails :
  (run (display_sections (VDict {[ "items" := VList [] ]}))
   = (Ok VNone, [Print "No tournament sections found"])
   ∧ printed_current_rating
       (run (display_sections (VDict {[ "items" := VList [] ]}))).2
     ≠ Some (VStr "N/A"))
  ∧ (let doc := VDict {[ "items" := VList [ VDict {[ "ratingRecords" :=
                VList [ VDict (list_to_map [("preRating", VInt 1500);
                                            ("postRating", VInt 0)]) ] ]} ] ]} in
     printed_current_rating (run (display_sections doc)).2 = Some (VInt 1500)
     ∧ VInt 1500 ≠ VInt 0).
Proof.
  split; [split; [reflexivity | vm_compute; discriminate] |].
  split; [vm_compute; reflexivity | discriminate].
Qed.

(** A post-rating of 0 is falsy for [or]: the summary passes it over and
    shows the pre-rating, while the row shows the 0. *)
Example current_rating_post_rating_zero :
  let doc := VDict {[ "items" := VList [ VDict {[ "ratingRecords" :=
               VList [ VDict (list_to_map [("preRating", VInt 1500);
                                           ("postRating", VInt 0)]) ] ]} ] ]} in
  printed_current_rating (run (display_sections doc)).2 = Some (VInt 1500)
  ∧ printed_table (run (display_sections doc)).2
    = Some [[VStr "N/A"; VStr "N/A"; VStr "N/A"; VStr "R"; VInt 1500; VInt 0;
             VStr "-1500"]].
Proof. vm_compute. by split. Qed.

Lemma printed_current_rating_run (d : gmap string value) (s : value)
    (ss : list value) (cr : value) :
  d !! "items" = Some (VList (s :: ss)) →
  current_rating s = Ok cr →
  printed_current_rating (run (display_sections (VDict d))).2 = Some cr.
Proof.
  intros H Hcr. rewrite (display_sections_list _ _ _ H), Hcr. cbv zeta.
  by destruct (for_sections _ _).
Qed.

(** C6, amended: for a non-empty section list whose first section is an
    object, the current rating of the summary is the post-rating of the
    first rating record of the first section when that is present and not
    0; when the post-rating is absent, it is the pre-rating of that record
    when that is present and not 0; and it is "N/A" when the first section
    has no rating record, or the record neither rating. *)
Theorem display_sections_current_rating
    (d s : gmap string value) (ss recs : list value) :
  d !! "items" = Some (VList (VDict s :: ss)) →
  from_option id (VList []) (s !! "ratingRecords") = VList recs →
  let shown := printed_current_rating (run (display_sections (VDict d))).2 in
  (recs = [] → shown = Some (VStr "N/A"))
  ∧ (∀ (r : gmap string value) (rest : list value) (post pre : option Z),
       recs = VDict r :: rest →
       from_option id VNone (r !! "postRating") = rating post →
       from_option id VNone (r !! "preRating") = rating pre →
       post ≠ Some 0 → (post = None → pre ≠ Some 0) →
       shown = Some match post, pre with
                    | Some p, _ => VInt p
                    | None, Some q => VInt q
                    | None, None => VStr "N/A"
                    end).
Proof.
  intros Hitems Hrecs shown. subst shown. split.
  - intros ->. apply (printed_current_rating_run _ _ _ _ Hitems).
    unfold current_rating, py_get. by rewrite Hrecs.
  - intros r rest post pre -> Hpost Hpre Hp0 Hq0.
    apply (printed_current_rating_run _ _ _ _ Hitems).
    unfold current_rating, py_get. rewrite Hrecs.
    cbn [mbind result_bind truthy py_first]. rewrite Hpost, Hpre.
    unfold py_or. destruct post as [p|]; cbn [rating truthy negb].
    + destruct (Z.eqb_spec p 0) as [-> |]; [by destruct Hp0 | done].
    + destruct pre as [q|]; cbn [rating truthy negb]; [| done].
      destruct (Z.eqb_spec q 0) as [-> |]; [by destruct Hq0 | done].
Qed.

Lemma display_sections_current_rating_witness :
  printed_current_rating (run (display_sections example_doc)).2
  = Some (VInt 1520).
Proof.
  refine (proj2 (display_sections_current_rating
            {[ "items" := VList [ VDict (list_to_map [
                 ("ratingRecords", VList [ VDict (list_to_map [
                    ("preRating", VInt 1500); ("postRating", VInt 1520)]) ]);
                 ("ratingSystem", VStr "R");
                 ("sectionName", VStr "Open");
                 ("event", VDict (list_to_map [
                    ("name", VStr "Spring Open");
                    ("endDate", VStr "2024-03-10T00:00:00Z")])) ]) ] ]}
            (list_to_map [
               ("ratingRecords", VList [ VDict (list_to_map [
                  ("preRating", VInt 1500); ("postRating", VInt 1520)]) ]);
               ("ratingSystem", VStr "R");
               ("sectionName", VStr "Open");
               ("event", VDict (list_to_map [
                  ("name", VStr "Spring Open");
                  ("endDate", VStr "2024-03-10T00:00:00Z")])) ])
            []
            [ VDict (list_to_map [
                ("preRating", VInt 1500); ("postRating", VInt 1520)]) ]
            _ _)
          (list_to_map [("preRating", VInt 1500); ("postRating", VInt 1520)])
          [] (Some 1520) (Some 1500) _ _ _ _ _);
    try (vm_compute; reflexivity); [discriminate | discriminate].
Defined.

(** ** Well-formed sections always get their row *)

Lemma first_record_ratings_well_formed (s : gmap string value) :
  match s !! "ratingRecords" with
  | None | Some (VList []) => true
  | Some (VList (VDict r :: _)) =>
      optional_int (r !! "preRating") && optional_int (r !! "postRating")
  | Some _ => false
  end = true →
  ∃ before after : option Z,
    first_record_ratings (from_option id (VList []) (s !! "ratingRecords"))
    = Ok (rating before, rating after).
Proof.
  destruct (s !! "ratingRecords") as [[| | | |[|[| | | | |r] rest]|]|];
    try done; try (by exists None, None).
  intros [Hpre Hpost]%andb_prop.
  unfold first_record_ratings, py_get, py_first. cbn.
  destruct (r !! "preRating") as [[| |a| | |]|]; try done;
    destruct (r !! "postRating") as [[| |b| | |]|]; try done; cbn.
  - by exists None, None.
  - by exists None, (Some b).
  - by exists None, None.
  - by exists (Some a), None.
  - by exists (Some a), (Some b).
  - by exists (Some a), None.
  - by exists None, None.
  - by exists None, (Some b).
  - by exists None, None.
Qed.

Lemma section_row_well_formed (section : value) :
  well_formed_section section = true → ∃ row, section_row section = Ok row.
Proof.
  destruct section as [| | | | |s]; try done. cbn [well_formed_section].
  intros [[Hrec Hevent]%andb_prop Hname]%andb_prop.
  rewrite section_row_dict.
  destruct (first_record_ratings_well_formed _ Hrec) as (before & after & ->).
  cbn [mbind result_bind].
  rewrite calculate_rating_change_rating.
  cbn [mbind result_bind]. cbv zeta.
  assert (∃ (e : gmap string value) (name : string),
            from_option id (VDict ∅) (s !! "event") = VDict e
            ∧ from_option id (VStr "N/A") (e !! "name") = VStr name)
    as (e & name & -> & He).
  { destruct (s !! "event") as [[| | | | |e]|]; try done.
    - exists e. destruct (e !! "name") as [[| | |name| |]|]; try done;
        by eexists.
    - by exists ∅, "N/A". }
  cbn [py_get mbind result_bind]. rewrite He.
  destruct (py_or _ _) as [event_date|] eqn:Hdate.
  2:{ unfold py_or in Hdate. by destruct (truthy _). }
  cbn [mbind result_bind].
  destruct (format_date_never_raises event_date) as [date ->].
  cbn [mbind result_bind py_slice_to].
  destruct (s !! "sectionName") as [[| | |section_name| |]|]; try done;
    by eexists.
Qed.

(** A document whose sections are well formed is displayed to the end, with
    one row for each section. *)
Lemma display_sections_well_formed (d : gmap string value)
    (s : value) (ss : list value) :
  d !! "items" = Some (VList (s :: ss)) →
  forallb well_formed_section (s :: ss) = true →
  ∃ out table_data,
    run (display_sections (VDict d)) = (Ok VNone, out)
    ∧ printed_table out = Some table_data
    ∧ length table_data = length (s :: ss).
Proof.
  intros Hitems Hwf. rewrite (display_sections_list _ _ _ Hitems).
  assert (∃ cr, current_rating s = Ok cr) as [cr ->].
  { cbn [forallb] in Hwf. apply andb_prop in Hwf as [Hs _].
    destruct s as [| | | | |m]; try done. cbn [well_formed_section] in Hs.
    apply andb_prop in Hs as [[Hrec _]%andb_prop _].
    unfold current_rating, py_get.
    destruct (m !! "ratingRecords") as [[| | | |[|[| | | | |r] rest]|]|];
      try done; try (by eexists).
    cbn. unfold py_or. destruct (truthy _); [by eexists |].
    destruct (truthy _); by eexists. }
  cbv zeta.
  assert (∀ l acc, forallb well_formed_section l = true →
            ∃ rows, for_sections l acc = Ok (acc ++ rows)
                    ∧ length rows = length l) as Hloop.
  { clear. induction l as [|x l IH]; intros acc Hwf.
    - exists []. by rewrite app_nil_r.
    - cbn [forallb] in Hwf. apply andb_prop in Hwf as [Hx Hl].
      destruct (section_row_well_formed _ Hx) as [row Hrow].
      destruct (IH (acc ++ [row]) Hl) as (rows & Hrows & Hlen).
      exists (row :: rows). cbn [for_sections]. rewrite Hrow.
      cbn [mbind result_bind]. rewrite Hrows, <- app_assoc.
      split; [done | cbn [length]; by rewrite Hlen]. }
  destruct (Hloop (s :: ss) [] Hwf) as (rows & -> & Hlen).
  by exists (banner_lines ++ summary_lines cr (Z.of_nat (length (s :: ss)))
               ++ table_lines rows), rows.
Qed.
(** ** [fetch_member_sections] *)

Example fetch_member_sections_refused :
  run (fetch_member_sections (λ _ _, Raise (RequestException ConnectionError))
         "17323973" 0 50)
  = (Ok VNone, [PrintExn "Error fetching data: " (RequestException ConnectionError)]).
Proof. reflexivity. Qed.

Example fetch_member_sections_interrupted :
  run (fetch_member_sections (λ _ _, Raise KeyboardInterrupt) "17323973" 0 50)
  = (Raise KeyboardInterrupt, []).
Proof. reflexivity. Qed.

(** C5 as written fails twice.  A status outside 2xx that
    [raise_for_status] lets through does not give [None]: a 300 answer with
    a JSON body is decoded and returned.  And an exception that is not a
    [RequestException] is not caught: when [response.json()] gives up on a
    body nested too deep, the [RecursionError] reaches the caller. *)
Lemma fetch_member_sections_claim_fails :
  (let net : network := λ _ _, Ok (mk_response 300 (Ok example_doc)) in
   ¬ (200 ≤ 300 < 300)
   ∧ run (fetch_member_sections net "17323973" 0 50) = (Ok example_doc, [])
   ∧ example_doc ≠ VNone)
  ∧ (let net : network := λ _ _, Ok (mk_response 200 (Raise RecursionError)) in
     run (fetch_member_sections net "17323973" 0 50) = (Raise RecursionError, [])).
Proof.
  split; [split; [lia | split; [reflexivity | discriminate]] | reflexivity].
Qed.

(** The run of [fetch_member_sections], by what the two library calls do. *)
Lemma fetch_member_sections_run (net : network) (member_id : string)
    (offset size : Z) :
  run (fetch_member_sections net member_id offset size)
  = match (r ← net (sections_url member_id) (sections_query offset size);
           _ ← raise_for_status r;
           json r) with
    | Ok decoded => (Ok decoded, [])
    | Raise (RequestException e) =>
        (Ok VNone, [PrintExn "Error fetching data: " (RequestException e)])
    | Raise e => (Raise e, [])
    end.
Proof.
  unfold fetch_member_sections, run, requests_get, response_json,
    sections_url, sections_query.
  by destruct (_ ≫= _) as [v|[]].
Qed.

Lemma raise_for_status_error (r : response) :
  400 ≤ status_code r < 600 →
  raise_for_status r = Raise (RequestException (HTTPError (status_code r))).
Proof.
  intros H. unfold raise_for_status.
  by rewrite (proj2 (andb_true_iff _ _)) by (split; lia).
Qed.

Lemma raise_for_status_ok (r : response) :
  ¬ (400 ≤ status_code r < 600) → raise_for_status r = Ok ().
Proof.
  intros H. unfold raise_for_status.
  assert ((400 <=? status_code r) && (status_code r <? 600) = false) as ->; [| done].
  apply andb_false_iff. lia.
Qed.

(** C5, amended: the call returns [None], after printing one error line,
    when [requests.get] raises a [RequestException] and when the answer has
    a 4xx or 5xx status; no [RequestException] ever reaches the caller,
    while an exception of another class, raised by the request or by the
    decoding of the body, does, with nothing printed; and when the request
    is answered with a status that is no error and the body decodes, the
    decoded body is returned and nothing is printed. *)
Theorem fetch_member_sections_spec
    (net : network) (member_id : string) (offset size : Z) :
  let answer := net (sections_url member_id) (sections_query offset size) in
  let outcome := run (fetch_member_sections net member_id offset size) in
  let error e := [PrintExn "Error fetching data: " (RequestException e)] in
  (∀ e, answer = Raise (RequestException e) → outcome = (Ok VNone, error e))
  ∧ (∀ r, answer = Ok r → 400 ≤ status_code r < 600 →
       outcome = (Ok VNone, error (HTTPError (status_code r))))
  ∧ (∀ e out, outcome = (Raise e, out) → ∀ x, e ≠ RequestException x)
  ∧ (∀ e, (∀ x, e ≠ RequestException x) →
       answer = Raise e
       ∨ (∃ r, answer = Ok r ∧ ¬ (400 ≤ status_code r < 600) ∧ json r = Raise e) →
       outcome = (Raise e, []))
  ∧ (∀ r decoded, answer = Ok r → ¬ (400 ≤ status_code r < 600) →
       json r = Ok decoded → outcome = (Ok decoded, [])).
Proof.
  intros answer outcome error. subst answer outcome error. cbv beta.
  rewrite fetch_member_sections_run.
  split; [| split; [| split; [| split]]].
  - by intros e ->.
  - intros r -> Hs. cbn [mbind result_bind].
    by rewrite raise_for_status_error.
  - intros e out H x ->.
    by destruct (_ ≫= _) as [v|[]].
  - intros e He [-> | (r & -> & Hs & Hj)]; cbn [mbind result_bind].
    + destruct e as [| | | | | | |x]; try done. by destruct (He x).
    + rewrite raise_for_status_ok by done. cbn [mbind result_bind].
      rewrite Hj. destruct e as [| | | | | | |x]; try done. by destruct (He x).
  - intros r decoded -> Hs Hj. cbn [mbind result_bind].
    rewrite raise_for_status_ok by done. cbn [mbind result_bind].
    by rewrite Hj.
Qed.

Lemma fetch_member_sections_spec_witness :
  run (fetch_member_sections
         (λ _ _, Ok (mk_response 200 (Ok example_doc))) "17323973" 0 50)
  = (Ok example_doc, []).
Proof.
  refine (proj2 (proj2 (proj2 (proj2 (fetch_member_sections_spec
            (λ _ _, Ok (mk_response 200 (Ok example_doc))) "17323973" 0 50))))
            (mk_response 200 (Ok example_doc)) example_doc _ _ _);
    [reflexivity | cbn; lia | reflexivity].
Defined.

(** ** [main] *)

(** When the transport fails, the run prints the error and the failure
    message, and no table. *)
Lemma main_transport_failure (member_id : string) (size : Z) :
  let '(returned, out) :=
    run (main (λ _ _, Raise (RequestException ConnectionError)) member_id size) in
  returned = Ok ()
  ∧ last out = Some (Print "Failed to fetch data. Please check your internet connection and member ID.")
  ∧ printed_table out = None.
Proof. by repeat split. Qed.

(** * Further properties *)

(** ** [calculate_rating_change], beyond optional integers *)

Lemma sign_prefixed_inj (x y : Z) : sign_prefixed x = sign_prefixed y → x = y.
Proof.
  destruct x as [|p|p], y as [|q|q]; try done; cbn; intros [= H];
    change (pretty p = pretty q) in H; apply (inj pretty) in H; by subst.
Qed.

(** X1: the Change text of two integer ratings tells their difference:
    two pairs get the same text exactly when they differ by the same
    amount, and the text starts with "+" exactly for a gain. *)
Theorem calculate_rating_change_decodes (b a b' a' : Z) :
  (calculate_rating_change (VInt b) (VInt a)
   = calculate_rating_change (VInt b') (VInt a') ↔ a - b = a' - b')
  ∧ ((∃ digits, calculate_rating_change (VInt b) (VInt a)
                = Ok (VStr ("+" +:+ digits))) ↔ b < a).
Proof.
  rewrite !calculate_rating_change_int. split.
  - split; [| by intros ->].
    intros [= H]. by apply sign_prefixed_inj.
  - split.
    + intros [digits [= H]]. destruct (a - b) as [|p|p] eqn:E; try done. lia.
    + intros H. destruct (a - b) as [|p|p] eqn:E; try lia. by eexists.
Qed.

(** X2: a rating that is [None] makes the change "Pending", whatever the
    other rating is; and when neither is [None], a rating that came as
    text, as a list or as an object makes the subtraction raise
    [TypeError]. *)
Theorem calculate_rating_change_raises (rating_before rating_after : value) :
  (is_none rating_before || is_none rating_after = true →
   calculate_rating_change rating_before rating_after = Ok (VStr "Pending"))
  ∧ (is_none rating_before = false → is_none rating_after = false →
     not_a_number rating_before || not_a_number rating_after = true →
     calculate_rating_change rating_before rating_after = Raise TypeError).
Proof.
  unfold calculate_rating_change, py_sub. split.
  - intros H. rewrite orb_comm in H. by rewrite H.
  - intros -> -> H. cbn [orb].
    destruct rating_before, rating_after; done.
Qed.

Lemma calculate_rating_change_raises_witness :
  calculate_rating_change (VStr "1500") (VInt 1520) = Raise TypeError.
Proof.
  apply (calculate_rating_change_raises (VStr "1500") (VInt 1520)); reflexivity.
Defined.

(** ** [format_date] on every value *)

Lemma str_or_not (v : value) : (∃ s, v = VStr s) ∨ (∀ s, v ≠ VStr s).
Proof. destruct v; try (by right); left; by eexists. Qed.

Lemma format_date_not_str (v : value) :
  (∀ s, v ≠ VStr s) →
  format_date v = Ok (if truthy v then v else VStr "N/A").
Proof.
  intros Hv. unfold format_date, format_date_with.
  destruct (truthy v) eqn:E; [| done].
  destruct v; try done. by destruct (Hv s).
Qed.

Lemma strftime_Y_m_d_truthy (date : datetime) :
  truthy (VStr (strftime_Y_m_d date)) = true.
Proof. unfold strftime_Y_m_d. by destruct (str_int (year date)). Qed.

(** X3: whatever JSON value stands where the date should be, [format_date]
    returns, and never with something blank: a falsy value (null, 0, false,
    an empty string, list or object) gives "N/A", and a truthy value that
    is not a string is handed back as it is. *)
Theorem format_date_any_value (date_string : value) :
  ∃ shown,
    format_date date_string = Ok shown
    ∧ truthy shown = true
    ∧ (truthy date_string = false → shown = VStr "N/A")
    ∧ ((∀ s, date_string ≠ VStr s) → truthy date_string = true →
       shown = date_string).
Proof.
  destruct (str_or_not date_string) as [[s ->] | Hv].
  - rewrite format_date_str, truthy_str.
    case_bool_decide as Hs.
    + subst. exists (VStr "N/A"). by repeat split.
    + destruct (fromisoformat _) as [date|].
      * exists (VStr (strftime_Y_m_d date)).
        split; [done | split; [apply strftime_Y_m_d_truthy |]].
        split; [| by intros H; destruct (H s)].
        by rewrite bool_decide_eq_true_2.
      * exists (VStr s). rewrite truthy_str.
        split; [done | split; [by rewrite bool_decide_eq_true_2 |]].
        split; [| done]. by rewrite bool_decide_eq_true_2.
  - rewrite (format_date_not_str _ Hv).
    destruct (truthy date_string) eqn:E; by eexists.
Qed.

Lemma format_date_any_value_witness :
  ∃ shown,
    format_date (VInt 20240310) = Ok shown
    ∧ truthy shown = true
    ∧ (truthy (VInt 20240310) = false → shown = VStr "N/A")
    ∧ ((∀ s, VInt 20240310 ≠ VStr s) → truthy (VInt 20240310) = true →
       shown = VInt 20240310).
Proof. exact (format_date_any_value (VInt 20240310)). Defined.

(** Fewer than four digits before the first "-" are no year for the
    parser. *)
Lemma parse_digits_short (k n : nat) (acc y : Z) (rest : string) :
  0 ≤ y < 10 ^ Z.of_nat k →
  parse_digits (k + S n) acc (zero_padded k y +:+ String "-" rest) = None.
Proof.
  revert acc y. induction k as [|k IH]; intros acc y Hy; [done |].
  rewrite Nat2Z.inj_succ, Z.pow_succ_r in * by lia.
  assert (0 < 10 ^ Z.of_nat k) as Hpow by (apply Z.pow_pos_nonneg; lia).
  pose proof (Z.div_mod y (10 ^ Z.of_nat k) ltac:(lia)) as Hdm.
  pose proof (Z.mod_pos_bound y (10 ^ Z.of_nat k) Hpow) as Hmod.
  assert (0 ≤ y / 10 ^ Z.of_nat k ≤ 9) as Hd.
  { split; [apply Z.div_pos; lia |].
    apply Z.lt_succ_r, Z.div_lt_upper_bound; lia. }
  rewrite Hdm at 1. rewrite (Z.mul_comm (10 ^ Z.of_nat k)).
  rewrite zero_padded_cons by done.
  change (String ?c ?a +:+ ?b) with (String c (a +:+ b)).
  change (S k + S n)%nat with (S (k + S n)).
  cbn [parse_digits]. rewrite digit_of_digit_char by done.
  cbn [mbind option_bind]. by rewrite IH.
Qed.

Lemma fromisoformat_short_year (k : nat) (y : Z) (rest : string) :
  (k < 4)%nat → 0 ≤ y < 10 ^ Z.of_nat k →
  fromisoformat (zero_padded k y +:+ String "-" rest) = Raise ValueError.
Proof.
  intros Hk Hy. unfold fromisoformat, parse_isoformat, parse_isoformat_date.
  replace 4%nat with (k + S (3 - k))%nat by lia.
  by rewrite parse_digits_short.
Qed.

(** A date that [format_date] wrote is mapped to itself: from the year 1000
    on it is read again, and before that it is no date for the parser. *)
Lemma format_date_strftime (date : datetime) :
  valid_datetime date = true →
  format_date (VStr (strftime_Y_m_d date)) = Ok (VStr (strftime_Y_m_d date)).
Proof.
  intros Hv. destruct (decide (1000 ≤ year date)) as [Hy | Hy].
  - rewrite strftime_Y_m_d_four_digits by done.
    unfold valid_datetime in Hv. apply bool_decide_eq_true in Hv.
    destruct Hv as (Hy' & Hm & Hd & _).
    pose proof (format_date_calendar_date (year date) (month date) (day date) ""
                  ltac:(lia) Hm Hd ltac:(by left)) as H.
    by rewrite str_append_nil_r in H.
  - rewrite format_date_str.
    pose proof (strftime_Y_m_d_truthy date) as Ht.
    rewrite truthy_str in Ht. apply bool_decide_eq_true in Ht.
    rewrite bool_decide_eq_false_2 by done.
    unfold valid_datetime in Hv. apply bool_decide_eq_true in Hv.
    destruct Hv as (Hy' & _).
    assert (∃ k, (k < 3)%nat ∧ 10 ^ Z.of_nat k ≤ year date < 10 ^ Z.of_nat (S k))
      as (k & Hk & Hyk).
    { destruct (decide (year date < 10)); [exists 0%nat; cbn; lia |].
      destruct (decide (year date < 100)); [exists 1%nat; cbn; lia |].
      exists 2%nat; cbn; lia. }
    unfold strftime_Y_m_d. rewrite (str_int_digits k) by done.
    rewrite !str_replace_app, !str_replace_zero_padded.
    change (str_replace "Z" "+00:00" "-") with "-".
    change ("-" +:+ ?b) with (String "-" b).
    by rewrite fromisoformat_short_year by lia.
Qed.

(** X4: formatting an already formatted date changes nothing: the text
    [format_date] shows is mapped to itself by [format_date]. *)
Theorem format_date_idempotent (date_string : value) :
  format_date date_string ≫= format_date = format_date date_string.
Proof.
  destruct (str_or_not date_string) as [[s ->] | Hv].
  - rewrite format_date_str. case_bool_decide as Hs; [done |].
    unfold fromisoformat.
    destruct (parse_isoformat _) as [date|] eqn:Hp; cbn [mbind result_bind].
    + apply format_date_strftime. by apply (parse_isoformat_valid _ _ Hp).
    + rewrite format_date_str, bool_decide_eq_false_2 by done.
      unfold fromisoformat. by rewrite Hp.
  - rewrite (format_date_not_str _ Hv).
    destruct (truthy date_string) eqn:E; cbn [mbind result_bind]; [| done].
    by rewrite (format_date_not_str _ Hv), E.
Qed.

(** ** Output only grows *)

Lemma appends_ret {A} (a : A) : appends (mret a).
Proof. intros out. by rewrite app_nil_r. Qed.

Lemma appends_lift {A} (r : result A) : appends (lift r).
Proof. intros out. unfold lift. by rewrite app_nil_r. Qed.

Lemma appends_print (o : output) : appends (print o).
Proof. by intros out. Qed.

Lemma appends_bind {A B} (m : io A) (k : A → io B) :
  appends m → (∀ a, appends (k a)) → appends (m ≫= k).
Proof.
  intros Hm Hk out. unfold mbind, io_bind.
  rewrite (Hm out). destruct (m []) as [[a|e] o1]; cbn [fst snd].
  - rewrite (Hk a (out ++ o1)), (Hk a o1). cbn [fst snd].
    by rewrite app_assoc.
  - done.
Qed.

Ltac appends :=
  repeat first
    [ apply appends_ret | apply appends_lift | apply appends_print
    | apply appends_bind; [| intros ?]
    | match goal with |- appends (if ?b then _ else _) => destruct b end ].

Lemma display_sections_appends (data : value) : appends (display_sections data).
Proof. unfold display_sections. appends. Qed.

Lemma fetch_member_sections_appends (net : network) (member_id : string)
    (offset size : Z) :
  appends (fetch_member_sections net member_id offset size).
Proof.
  unfold fetch_member_sections.
  destruct (_ ≫= _) as [v|[]]; appends.
Qed.

(** ** The table as a whole *)

Lemma section_row_length (section : value) (row : list value) :
  section_row section = Ok row → length row = length headers.
Proof.
  destruct section as [| | | | |s]; try done. intros H.
  by apply section_row_cells in H as (? & ? & ? & ? & ? & ? & ? & _ & _ & _ & _ & _ & ->).
Qed.

(** X5: when the run on a non-empty section list ends normally, the table
    has one row for each section, in the order of the sections, each the
    row of its own section, with a cell under every header; and the summary
    counts all the sections. *)
Theorem display_sections_table_shape
    (d : gmap string value) (sections : list value) (out : list output) :
  d !! "items" = Some (VList sections) →
  sections ≠ [] →
  run (display_sections (VDict d)) = (Ok VNone, out) →
  ∃ table_data,
    printed_table out = Some table_data
    ∧ Forall2 (λ section row, section_row section = Ok row) sections table_data
    ∧ length table_data = length sections
    ∧ Forall (λ row, length row = length headers) table_data
    ∧ printed_total_sections out = Some (VInt (Z.of_nat (length sections))).
Proof.
  intros Hitems Hne Hrun. destruct sections as [|s ss]; [done |].
  pose proof Hrun as Hrun'.
  rewrite (display_sections_list _ _ _ Hitems) in Hrun'.
  destruct (current_rating s) as [cr|]; [| done]. cbv zeta in Hrun'.
  destruct (for_sections (s :: ss) []) as [rows|] eqn:Hloop; [| done].
  injection Hrun' as Hout. exists rows.
  assert (printed_table out = Some rows) as Htable by (by rewrite <- Hout).
  pose proof (display_sections_rows _ _ _ _ Hitems Hrun Htable) as Hrows.
  split; [done | split; [done |]].
  split; [symmetry; by eapply Forall2_length |].
  split; [| by rewrite <- Hout].
  clear -Hrows. induction Hrows as [|x row l rows' Hx _ IH]; constructor; [| done].
  by apply (section_row_length x).
Qed.

Lemma display_sections_table_shape_witness :
  ∃ table_data,
    printed_table (run (display_sections sample_doc)).2 = Some table_data
    ∧ Forall2 (λ section row, section_row section = Ok row)
        sample_sections table_data
    ∧ length table_data = length sample_sections
    ∧ Forall (λ row, length row = length headers) table_data
    ∧ printed_total_sections (run (display_sections sample_doc)).2
      = Some (VInt (Z.of_nat (length sample_sections))).
Proof.
  apply (display_sections_table_shape {[ "items" := VList sample_sections ]});
    [vm_compute; reflexivity | discriminate | vm_compute; reflexivity].
Defined.

Lemma for_sections_Raise (sections : list value) (acc : list (list value)) :
  forallb (λ section, returns (section_row section)) sections = false →
  ∃ e, for_sections sections acc = Raise e.
Proof.
  revert acc. induction sections as [|s ss IH]; intros acc H; [done |].
  cbn [forallb for_sections] in *.
  destruct (section_row s) as [row|e]; cbn [returns andb mbind result_bind] in *.
  - by apply IH.
  - by exists e.
Qed.

(** X6: one section whose row raises costs the whole table: the run ends
    with an exception after the banner (and the summary, if the first
    section allowed it), and no table is printed, not even the rows of the
    sections before. *)
Theorem display_sections_table_all_or_nothing
    (d : gmap string value) (sections : list value) :
  d !! "items" = Some (VList sections) →
  forallb (λ section, returns (section_row section)) sections = false →
  ∃ e out,
    run (display_sections (VDict d)) = (Raise e, out)
    ∧ printed_table out = None
    ∧ (out = banner_lines
       ∨ ∃ cr, out = banner_lines
                     ++ summary_lines cr (Z.of_nat (length sections))).
Proof.
  intros Hitems Hbad. destruct sections as [|s ss]; [done |].
  rewrite (display_sections_list _ _ _ Hitems).
  destruct (current_rating s) as [cr|e].
  - cbv zeta. destruct (for_sections_Raise _ [] Hbad) as [e ->].
    exists e. eexists. split; [done | split; [done |]]. right. by exists cr.
  - exists e, banner_lines. split; [done | split; [done | by left]].
Qed.

Lemma display_sections_table_all_or_nothing_witness :
  ∃ e out,
    run (display_sections (VDict {[ "items" := VList (sample_sections ++ [VNone]) ]}))
    = (Raise e, out)
    ∧ printed_table out = None
    ∧ (out = banner_lines
       ∨ ∃ cr, out = banner_lines
                     ++ summary_lines cr
                          (Z.of_nat (length (sample_sections ++ [VNone])))).
Proof.
  apply (display_sections_table_all_or_nothing
           {[ "items" := VList (sample_sections ++ [VNone]) ]});
    vm_compute; reflexivity.
Defined.

(** ** What a row says *)

Lemma section_row_change (section : value) (row : list value) :
  section_row section = Ok row →
  (∀ b a, row !! 4%nat = Some (VInt b) → row !! 5%nat = Some (VInt a) →
     row !! 6%nat = Some (VStr (sign_prefixed (a - b))))
  ∧ (row !! 4%nat = Some (VStr "N/A") ∨ row !! 5%nat = Some (VStr "Pending") →
     row !! 6%nat = Some (VStr "Pending")).
Proof.
  destruct section as [| | | | |s]; try done. intros H.
  apply section_row_cells in H
    as (rb & ra & change & ? & ? & ? & ? & _ & Hc & _ & _ & _ & ->).
  cbn [lookup list_lookup]. split.
  - intros b a [= Hb] [= Ha].
    destruct rb; try done. destruct ra; try done.
    injection Hb as ->. injection Ha as ->.
    rewrite calculate_rating_change_int in Hc. by injection Hc as <-.
  - unfold calculate_rating_change, py_sub in Hc.
    intros [[= Hb] | [= Ha]].
    + destruct rb; try done; destruct ra; try done; by injection Hc as <-.
    + destruct ra; try done; destruct rb; try done; by injection Hc as <-.
Qed.

(** X7: in every printed row the Change cell agrees with the two cells
    before it: it is the sign-prefixed After - Before when both show an
    integer, and "Pending" when Before shows "N/A" or After shows
    "Pending". *)
Theorem display_sections_change_agrees
    (d : gmap string value) (sections : list value) (out : list output)
    (table_data : list (list value)) :
  d !! "items" = Some (VList sections) →
  run (display_sections (VDict d)) = (Ok VNone, out) →
  printed_table out = Some table_data →
  Forall (λ row,
            (∀ b a, row !! 4%nat = Some (VInt b) → row !! 5%nat = Some (VInt a) →
               row !! 6%nat = Some (VStr (sign_prefixed (a - b))))
            ∧ (row !! 4%nat = Some (VStr "N/A")
               ∨ row !! 5%nat = Some (VStr "Pending") →
               row !! 6%nat = Some (VStr "Pending"))) table_data.
Proof.
  intros Hitems Hrun Htable.
  pose proof (display_sections_rows _ _ _ _ Hitems Hrun Htable) as Hrows.
  clear -Hrows.
  induction Hrows as [|x row l rows' Hx _ IH]; constructor; [| done].
  by apply (section_row_change x).
Qed.

Lemma display_sections_change_agrees_witness :
  Forall (λ row,
            (∀ b a, row !! 4%nat = Some (VInt b) → row !! 5%nat = Some (VInt a) →
               row !! 6%nat = Some (VStr (sign_prefixed (a - b))))
            ∧ (row !! 4%nat = Some (VStr "N/A")
               ∨ row !! 5%nat = Some (VStr "Pending") →
               row !! 6%nat = Some (VStr "Pending")))
    [[VStr "2024-06-01"; VStr "Greater Boston Open Championsh";
      VStr "Under 1800 Reserve S"; VStr "R"; VStr "N/A"; VStr "Pending";
      VStr "Pending"];
     [VStr "2024-05-12"; VStr "Club Quads"; VStr "Open"; VStr "Q";
      VInt 1520; VInt 1498; VStr "-22"]].
Proof.
  apply (display_sections_change_agrees
           {[ "items" := VList sample_sections ]} sample_sections
           (run (display_sections sample_doc)).2);
    vm_compute; reflexivity.
Defined.

(** X8: the Date cell of a returned row prefers the end date: a truthy
    [endDate] is formatted and [startDate] is not looked at; with
    [endDate] absent, null or empty the [startDate] is formatted; and a
    section without [event] shows "N/A" for both Date and Tournament, one
    without [sectionName] shows "N/A" for Section. *)
Theorem section_row_event_defaults
    (s : gmap string value) (row : list value) :
  section_row (VDict s) = Ok row →
  (s !! "event" = None →
     row !! 0%nat = Some (VStr "N/A") ∧ row !! 1%nat = Some (VStr "N/A"))
  ∧ (s !! "sectionName" = None → row !! 2%nat = Some (VStr "N/A"))
  ∧ (∀ (e : gmap string value) (end_date : value),
       s !! "event" = Some (VDict e) → e !! "endDate" = Some end_date →
       truthy end_date = true →
       ∃ date, row !! 0%nat = Some date ∧ format_date end_date = Ok date)
  ∧ (∀ e : gmap string value,
       s !! "event" = Some (VDict e) →
       truthy (from_option id VNone (e !! "endDate")) = false →
       ∃ date, row !! 0%nat = Some date
               ∧ format_date (from_option id (VStr "") (e !! "startDate"))
                 = Ok date).
Proof.
  rewrite section_row_dict. intros H.
  apply result_bind_Ok in H as ([rb ra] & _ & H).
  apply result_bind_Ok in H as (change & _ & H). cbv zeta in H.
  apply result_bind_Ok in H as (event_name & Hname & H).
  apply result_bind_Ok in H as (end_date & Hend & H).
  apply result_bind_Ok in H as (event_date & Hdate & H).
  apply result_bind_Ok in H as (date & Hfmt & H).
  apply result_bind_Ok in H as (tournament & Ht & H).
  apply result_bind_Ok in H as (section_name & Hs & H).
  injection H as <-. cbn [lookup list_lookup].
  split; [| split; [| split]].
  - intros He. rewrite He in *. cbn in Hname, Hend, Hdate.
    injection Hname as <-. injection Hend as <-. injection Hdate as <-.
    injection Hfmt as <-. by injection Ht as <-.
  - intros Hn. rewrite Hn in Hs. by injection Hs as <-.
  - intros e end' He Hend' Htruthy. rewrite He in *.
    cbn [from_option id py_get] in Hend, Hdate. rewrite Hend' in Hend.
    injection Hend as <-. unfold py_or in Hdate. rewrite Htruthy in Hdate.
    injection Hdate as <-. by exists date.
  - intros e He Hfalsy. rewrite He in *.
    cbn [from_option id py_get] in Hend, Hdate.
    injection Hend as <-. unfold py_or in Hdate. rewrite Hfalsy in Hdate.
    injection Hdate as <-. by exists date.
Qed.

Lemma section_row_event_defaults_witness :
  ∃ date,
    [VStr "2024-06-01"; VStr "Greater Boston Open Championsh";
     VStr "Under 1800 Reserve S"; VStr "R"; VStr "N/A"; VStr "Pending";
     VStr "Pending"] !! 0%nat = Some date
    ∧ format_date (VStr "2024-06-01") = Ok date.
Proof.
  refine (proj2 (proj2 (proj2 (section_row_event_defaults open_section
            [VStr "2024-06-01"; VStr "Greater Boston Open Championsh";
             VStr "Under 1800 Reserve S"; VStr "R"; VStr "N/A";
             VStr "Pending"; VStr "Pending"] _))) open_event _ _);
    vm_compute; reflexivity.
Defined.

(** ** Documents of another shape *)

(** X9: a document that is not an object never gets a banner: the run
    either prints "No data available" and returns (a falsy document, or a
    list or text without "items" in it), or raises [TypeError] before
    printing anything. *)
Theorem display_sections_not_an_object (data : value) :
  (∀ d, data ≠ VDict d) →
  run (display_sections data) = (Ok VNone, [Print "No data available"])
  ∨ run (display_sections data) = (Raise TypeError, []).
Proof.
  intros Hd. unfold display_sections, run.
  destruct data as [|[]|n|s|l|d]; try (by left); try (by right).
  - cbn [truthy]. destruct (n =? 0); [by left | by right].
  - cbn [truthy py_contains]. destruct (String.eqb s ""); [by left |].
    cbn [negb fmap result_fmap]. case_bool_decide; [by right | by left].
  - destruct l as [|x l]; [by left |].
    cbn [truthy negb py_contains fmap result_fmap].
    destruct (existsb _ _); [by right | by left].
  - by destruct (Hd d).
Qed.

Lemma display_sections_not_an_object_witness :
  run (display_sections (VList [VStr "items"]))
  = (Ok VNone, [Print "No data available"])
  ∨ run (display_sections (VList [VStr "items"])) = (Raise TypeError, []).
Proof. apply display_sections_not_an_object. discriminate. Defined.

(** X10: when [items] is not a list, the run prints neither summary nor
    table: a falsy [items] (null, 0, false, empty text or object) is
    reported as "No tournament sections found", any other raises right
    after the banner. *)
Theorem display_sections_items_not_a_list
    (d : gmap string value) (items : value) :
  d !! "items" = Some items →
  (∀ l, items ≠ VList l) →
  if truthy items
  then ∃ e, run (display_sections (VDict d)) = (Raise e, banner_lines)
  else run (display_sections (VDict d))
       = (Ok VNone, [Print "No tournament sections found"]).
Proof.
  intros Hitems Hl. unfold display_sections, run.
  rewrite (truthy_dict_lookup _ _ _ Hitems).
  unfold py_contains, py_getitem. rewrite Hitems.
  rewrite bool_decide_eq_true_2 by eauto.
  unfold mbind, io_bind, result_bind, mret, io_ret, lift, print.
  cbn -[rule nl current_rating for_sections String.append truthy py_first].
  destruct (truthy items) eqn:E; cbn [negb]; [| done].
  destruct items as [|[]|n|s|l|m]; try done; try (by eexists).
  - destruct s as [|c s]; [done |]. by eexists.
  - by destruct (Hl l).
Qed.

Lemma display_sections_items_not_a_list_witness :
  ∃ e, run (display_sections (VDict {[ "items" := VStr "none" ]}))
       = (Raise e, banner_lines).
Proof.
  apply (display_sections_items_not_a_list
           {[ "items" := VStr "none" ]} (VStr "none"));
    [vm_compute; reflexivity | discriminate].
Defined.

(** ** [main]: fetching, then displaying *)

Lemma main_run (net : network) (member_id : string) (size : Z) :
  run (main net member_id size)
  = match run (fetch_member_sections net member_id 0 size) with
    | (Raise e, fetched) => (Raise e, main_header member_id ++ fetched)
    | (Ok data, fetched) =>
        if truthy data then
          match run (display_sections data) with
          | (Ok _, shown) => (Ok (), main_header member_id ++ fetched ++ shown)
          | (Raise e, shown) =>
              (Raise e, main_header member_id ++ fetched ++ shown)
          end
        else (Ok (), main_header member_id ++ fetched ++ [failure_line])
    end.
Proof.
  unfold main, run at 1.
  unfold mbind at 1 2 3 4, io_bind at 1 2 3 4. unfold print at 1 2 3.
  cbn [app]. fold (main_header member_id).
  rewrite (fetch_member_sections_appends net member_id 0 size (main_header member_id)).
  unfold run.
  destruct (fetch_member_sections net member_id 0 size []) as [[data|e] fetched];
    cbn [fst snd]; [| done].
  destruct (truthy data); [| by rewrite app_assoc].
  unfold mbind, io_bind.
  rewrite (display_sections_appends data (main_header member_id ++ fetched)).
  destruct (display_sections data []) as [[v|e] shown]; cbn [fst snd];
    by rewrite app_assoc.
Qed.

(** X12: every failure of the fetch that [requests] reports ends [main]
    normally with the failure line as its last line and no table: after the
    error line when the request raised, the status was 4xx or 5xx or
    decoding the body raised, and without an error line when the body
    decoded to a falsy document (null, an empty object or list), which is
    reported as a failed fetch too.  An exception that is not of
    [requests] leaves [main] after its opening lines. *)
Theorem main_reports_failure (net : network) (member_id : string) (size : Z) :
  let error e := PrintExn "Error fetching data: " (RequestException e) in
  let failed lines :=
    run (main net member_id size)
    = (Ok (), main_header member_id ++ lines ++ [failure_line]) in
  let raised e := run (main net member_id size) = (Raise e, main_header member_id) in
  match net (sections_url member_id) (sections_query 0 size) with
  | Raise (RequestException e) => failed [error e]
  | Raise e => raised e
  | Ok r =>
      if bool_decide (400 ≤ status_code r < 600)
      then failed [error (HTTPError (status_code r))]
      else match json r with
           | Raise (RequestException e) => failed [error e]
           | Raise e => raised e
           | Ok data => truthy data = false → failed []
           end
  end.
Proof.
  intros error failed raised. subst failed raised. cbv beta.
  rewrite main_run, fetch_member_sections_run.
  destruct (net _ _) as [r|e]; cbn [mbind result_bind].
  - case_bool_decide as Hs.
    + by rewrite raise_for_status_error.
    + rewrite raise_for_status_ok by done. cbn [mbind result_bind].
      destruct (json r) as [data|[]]; try by rewrite ?app_nil_r.
      by intros ->.
  - destruct e; by rewrite ?app_nil_r.
Qed.

Lemma main_reports_failure_witness :
  run (main (λ _ _, Ok (mk_response 200 (Ok (VDict ∅)))) "17323973" 50)
  = (Ok (), main_header "17323973" ++ [] ++ [failure_line]).
Proof.
  exact (main_reports_failure
           (λ _ _, Ok (mk_response 200 (Ok (VDict ∅))))
           "17323973" 50 eq_refl).
Defined.

(** X13: for a document whose sections are all well formed (ratings
    integers when present, names text when present, the event an object
    when present) the run ends normally, whatever the dates and the rating
    system hold. *)
Theorem display_sections_returns
    (d : gmap string value) (sections : list value) :
  d !! "items" = Some (VList sections) →
  forallb well_formed_section sections = true →
  ∃ out, run (display_sections (VDict d)) = (Ok VNone, out).
Proof.
  intros Hitems Hwf. destruct sections as [|s ss].
  - rewrite (display_sections_empty_list _ Hitems). by eexists.
  - destruct (display_sections_well_formed _ _ _ Hitems Hwf)
      as (out & table & Hrun & _). by exists out.
Qed.

Lemma display_sections_returns_witness :
  ∃ out, run (display_sections sample_doc) = (Ok VNone, out).
Proof.
  apply (display_sections_returns {[ "items" := VList sample_sections ]}
           sample_sections);
    vm_compute; reflexivity.
Defined.

(** X14: when the service answers with a status that is no error and a
    document with a non-empty list of well-formed sections, [main] ends
    normally: it prints its opening lines and then exactly what
    [display_sections] prints, with a table of one row for each section
    and no error or failure line. *)
Theorem main_shows_table
    (net : network) (member_id : string) (size : Z) (r : response)
    (d : gmap string value) (s : value) (ss : list value) :
  net (sections_url member_id) (sections_query 0 size) = Ok r →
  ¬ (400 ≤ status_code r < 600) →
  json r = Ok (VDict d) →
  d !! "items" = Some (VList (s :: ss)) →
  forallb well_formed_section (s :: ss) = true →
  ∃ shown table_data,
    run (main net member_id size) = (Ok (), main_header member_id ++ shown)
    ∧ run (display_sections (VDict d)) = (Ok VNone, shown)
    ∧ printed_table shown = Some table_data
    ∧ length table_data = length (s :: ss).
Proof.
  intros Hnet Hstatus Hbody Hitems Hwf.
  destruct (display_sections_well_formed _ _ _ Hitems Hwf)
    as (shown & table & Hrun & Htable & Hlen).
  exists shown, table. split; [| done].
  rewrite main_run, fetch_member_sections_run, Hnet.
  cbn [mbind result_bind]. rewrite raise_for_status_ok by done.
  cbn [mbind result_bind]. rewrite Hbody.
  by rewrite (truthy_dict_lookup _ _ _ Hitems), Hrun.
Qed.

Lemma main_shows_table_witness :
  ∃ shown table_data,
    run (main (λ _ _, Ok (mk_response 200 (Ok sample_doc)))
           "17323973" 50)
    = (Ok (), main_header "17323973" ++ shown)
    ∧ run (display_sections (VDict {[ "items" := VList sample_sections ]}))
      = (Ok VNone, shown)
    ∧ printed_table shown = Some table_data
    ∧ length table_data = length sample_sections.
Proof.
  apply (main_shows_table
           (λ _ _, Ok (mk_response 200 (Ok sample_doc)))
           "17323973" 50 (mk_response 200 (Ok sample_doc))
           {[ "items" := VList sample_sections ]});
    [reflexivity | cbn; lia | reflexivity | vm_compute; reflexivity
    | vm_compute; reflexivity].
Defined.

(** ** The summary and the first row *)

Lemma current_rating_first_record (s : gmap string value) (rb ra : value) :
  first_record_ratings (from_option id (VList []) (s !! "ratingRecords"))
  = Ok (rb, ra) →
  current_rating (VDict s)
  = if truthy (from_option id (VList []) (s !! "ratingRecords"))
    then py_or ra (py_or rb (Ok (VStr "N/A")))
    else Ok (VStr "N/A").
Proof.
  unfold first_record_ratings, current_rating. cbn [py_get mbind result_bind].
  destruct (truthy _); [| done]. intros H.
  apply result_bind_Ok in H as (first & -> & H). cbn [mbind result_bind] in *.
  apply result_bind_Ok in H as (pre & -> & H).
  apply result_bind_Ok in H as (post & -> & H).
  by injection H as <- <-.
Qed.

(** X15: the summary agrees with the first row of the table: an integer
    After other than 0 is the current rating, and when After shows
    "Pending" beside an integer Before other than 0, that Before is. *)
Theorem display_sections_summary_agrees
    (d : gmap string value) (s : value) (ss : list value) (out : list output)
    (table_data : list (list value)) (row : list value) :
  d !! "items" = Some (VList (s :: ss)) →
  run (display_sections (VDict d)) = (Ok VNone, out) →
  printed_table out = Some table_data →
  table_data !! 0%nat = Some row →
  (∀ a, row !! 5%nat = Some (VInt a) → a ≠ 0 →
     printed_current_rating out = Some (VInt a))
  ∧ (∀ b, row !! 5%nat = Some (VStr "Pending") → row !! 4%nat = Some (VInt b) →
       b ≠ 0 → printed_current_rating out = Some (VInt b)).
Proof.
  intros Hitems Hrun Htable Hrow.
  pose proof (display_sections_rows _ _ _ _ Hitems Hrun Htable) as Hrows.
  destruct table_data as [|row' rows]; [done |]. injection Hrow as ->.
  apply Forall2_cons_1 in Hrows as [Hs _].
  assert (printed_current_rating out
          = Some match current_rating s with Ok cr => cr | Raise _ => VNone end)
    as ->.
  { rewrite (display_sections_list _ _ _ Hitems) in Hrun.
    destruct (current_rating s) as [cr|]; [| done]. cbv zeta in Hrun.
    destruct (for_sections _ _); [| done]. by injection Hrun as <-. }
  destruct s as [| | | | |m]; try done.
  apply section_row_cells in Hs
    as (rb & ra & change & ? & ? & ? & ? & Hr & Hc & _ & _ & _ & ->).
  rewrite (current_rating_first_record _ _ _ Hr).
  cbn [lookup list_lookup].
  assert (truthy (from_option id (VList []) (m !! "ratingRecords")) = false →
          rb = VNone ∧ ra = VNone) as Hfalsy.
  { intros E. unfold first_record_ratings in Hr. rewrite E in Hr.
    by injection Hr as <- <-. }
  split.
  - intros a [= Ha] Ha0. destruct ra; try done. injection Ha as ->.
    destruct (truthy _); [| by destruct Hfalsy].
    unfold py_or. cbn [truthy].
    by destruct (Z.eqb_spec a 0).
  - intros b [= Ha] [= Hb] Hb0. destruct rb; try done. injection Hb as ->.
    destruct (truthy _); [| by destruct Hfalsy].
    unfold calculate_rating_change, py_sub in Hc.
    destruct ra; try done.
    unfold py_or. cbn [truthy].
    by destruct (Z.eqb_spec b 0).
Qed.

Lemma display_sections_summary_agrees_witness :
  printed_current_rating (run (display_sections example_doc)).2
  = Some (VInt 1520).
Proof.
  refine (proj1 (display_sections_summary_agrees
            {[ "items" := VList [ VDict (list_to_map [
                 ("ratingRecords", VList [ VDict (list_to_map [
                    ("preRating", VInt 1500); ("postRating", VInt 1520)]) ]);
                 ("ratingSystem", VStr "R");
                 ("sectionName", VStr "Open");
                 ("event", VDict (list_to_map [
                    ("name", VStr "Spring Open");
                    ("endDate", VStr "2024-03-10T00:00:00Z")])) ]) ] ]}
            _ [] (run (display_sections example_doc)).2
            [[VStr "2024-03-10"; VStr "Spring Open"; VStr "Open"; VStr "R";
              VInt 1500; VInt 1520; VStr "+20"]]
            [VStr "2024-03-10"; VStr "Spring Open"; VStr "Open"; VStr "R";
             VInt 1500; VInt 1520; VStr "+20"] _ _ _ _) 1520 _ _);
    try (vm_compute; reflexivity); discriminate.
Defined.
